(** * River plastic detection: the detection request pipeline

    A shallow embedding of [backend/app.py]: the result normaliser
    [process_detection_results] and the two request handlers
    [detect_plastic] (POST /api/detect) and [batch_detect]
    (POST /api/batch-detect), followed by the properties the
    specification states about them.

    Conventions of the embedding.
    - In the reports, a Python/NumPy float is represented by the
      rational number it denotes ([Q]); there [np.mean] is the exact
      mean and [round(x, 2)] is rounding to the nearest hundredth with
      ties to even.  That is an idealisation of the arithmetic, used
      for the properties that do not turn on the last bit.  The
      arithmetic of the confidence field itself, NumPy's float32 mean
      and CPython's [round] on a double, is embedded bit for bit in
      module [Float32].
    - The detector, the identifier generator, the clock and the [float]
      builtin are collaborators outside the repository; they are fields
      of an [Env] record.  Base64 encoding is kept symbolic.
    - The file system is a pair of finite maps: the upload directory and
      the results directory.  Saving, listing, reading and removing are
      total on it; the exceptions of the model are those of [float] and
      of the detector.
    - A world carries, besides the file system, the log of the detector
      calls made so far, so that "the detector is not invoked" can be
      stated. *)

From Stdlib Require Import ZArith QArith Qround Qabs Lia Lqa Ascii String.
From Stdlib Require Import SpecFloat.
From stdpp Require Import base option list gmap strings pretty fin_maps.

Local Open Scope string_scope.

(** ** Numbers *)

Module Num.

(** [sum(l)] over rationals. *)
Definition Qsum (l : list Q) : Q := foldr Qplus (0%Q) l.

(** [np.mean(l)] for a non-empty array. *)
Definition np_mean (l : list Q) : Q :=
  (Qsum l / inject_Z (Z.of_nat (length l)))%Q.

(** Nearest integer, ties to the even neighbour. *)
Definition round_half_even (x : Q) : Z :=
  let f := Qfloor x in
  match ((x - inject_Z f) ?= (1 # 2))%Q with
  | Lt => f
  | Gt => (f + 1)%Z
  | Eq => if Z.even f then f else (f + 1)%Z
  end.

(** [round(x, 2)]; the result is kept in lowest terms. *)
Definition round2 (x : Q) : Q :=
  Qred (inject_Z (round_half_even (x * 100)) / 100)%Q.


End Num.

(** ** Result normaliser *)

Module Normalizer.
Import Num.

Inductive Severity : Type := Low | Medium | High.

(** The string the report carries for a severity. *)
Definition severity_name (s : Severity) : string :=
  match s with Low => "Low" | Medium => "Medium" | High => "High" end.

(** One row of the [xyxy] array (shape (n, 4)). *)
Record Row : Type := { r0 : Q; r1 : Q; r2 : Q; r3 : Q }.

(** The detector's [Boxes] object as the code reads it: its length and
    three arrays, each of which the code allows to be [None]. *)
Record Boxes : Type := {
  boxes_len : nat;
  conf : option (list Q);
  cls : option (list Q);
  xyxy : option (list Row)
}.

Record Result : Type := { boxes : option Boxes }.

Record BoundingBox : Type := {
  bb_x1 : Q; bb_y1 : Q; bb_x2 : Q; bb_y2 : Q;
  bb_confidence : Q;
  bb_class : string
}.

Record EnvironmentalImpact : Type := {
  severity : Severity;
  recommendation : string
}.

Record DetectionReport : Type := {
  detections : nat;
  confidence : Q;
  plastic_types : list string;
  bounding_boxes : list BoundingBox;
  environmental_impact : EnvironmentalImpact
}.

(** The report of both early returns. *)
Definition no_plastic_report : DetectionReport :=
  {| detections := 0;
     confidence := 0%Q;
     plastic_types := [];
     bounding_boxes := [];
     environmental_impact :=
       {| severity := Low; recommendation := "No plastic detected" |} |}.

(** [a.cpu().numpy() if a is not None else []] *)
Definition numpy_or_empty {A} (a : option (list A)) : list A :=
  match a with Some l => l | None => [] end.

(** The dictionary [recommendations]. *)
Definition recommendations (s : Severity) : string :=
  match s with
  | High => "Immediate cleanup required - High plastic pollution detected"
  | Medium => "Cleanup recommended - Moderate plastic pollution found"
  | Low => "Monitor area - Low level plastic pollution detected"
  end.

(** ['High' if detections > 5 else 'Medium' if detections > 1 else 'Low'] *)
Definition severity_of (detections : nat) : Severity :=
  if (5 <? detections)%nat then High
  else if (1 <? detections)%nat then Medium
  else Low.

(** The body of the loop [for i in range(len(xyxy))]. *)
Definition make_box (confidences : list Q) (class_names : list string)
    (i : nat) (row : Row) : BoundingBox :=
  {| bb_x1 := r0 row; bb_y1 := r1 row; bb_x2 := r2 row; bb_y2 := r3 row;
     bb_confidence :=
       match confidences !! i with Some c => c | None => 0%Q end;
     bb_class :=
       match class_names !! i with Some c => c | None => "plastic" end |}.

(** [list(set(l))]: the elements of [l] once each. *)
Definition list_set (l : list string) : list string := remove_dups l.

Definition process_detection_results (results : list Result)
    : DetectionReport :=
  match results with
  | [] => no_plastic_report
  | result :: _ =>
    match boxes result with
    | None => no_plastic_report
    | Some bxs =>
      if (boxes_len bxs =? 0)%nat then no_plastic_report else
      let detections := boxes_len bxs in
      let confidences := numpy_or_empty (conf bxs) in
      let classes := numpy_or_empty (cls bxs) in
      let xyxy := numpy_or_empty (xyxy bxs) in
      let avg_confidence :=
        if (0 <? length confidences)%nat then np_mean confidences
        else 0%Q in
      let class_names := replicate (length classes) "plastic" in
      let bounding_boxes := imap (make_box confidences class_names) xyxy in
      let severity := severity_of detections in
      {| detections := detections;
         confidence := round2 avg_confidence;
         plastic_types := list_set class_names;
         bounding_boxes := bounding_boxes;
         environmental_impact :=
           {| severity := severity;
              recommendation := recommendations severity |} |}
    end
  end.

(** A well-formed [Boxes] of the detector: three arrays of one length. *)
Definition boxes_of (rows : list (Row * Q * Q)) : Boxes :=
  {| boxes_len := length rows;
     conf := Some (rows.*1.*2);
     cls := Some (rows.*2);
     xyxy := Some (rows.*1.*1) |}.

End Normalizer.

(** ** Request orchestrator *)

Module Orchestrator.
Import Normalizer.

Definition UPLOAD_FOLDER : string := "uploads".
Definition RESULTS_FOLDER : string := "results".

(** [os.path.join(a, b)] *)
Definition path_join (a b : string) : string := a ++ "/" ++ b.

(** [s.lower()] on ASCII letters. *)
Definition lower_ascii (c : ascii) : ascii :=
  let n := nat_of_ascii c in
  if ((65 <=? n) && (n <=? 90))%nat then ascii_of_nat (n + 32) else c.

Fixpoint lower (s : string) : string :=
  match s with
  | EmptyString => EmptyString
  | String c s' => String (lower_ascii c) (lower s')
  end.

(** [s.endswith(suffix)] *)
Definition endswith (s suffix : string) : bool :=
  let n := String.length s in
  let m := String.length suffix in
  if (m <=? n)%nat then String.eqb (substring (n - m) m s) suffix else false.

(** *** Requests and responses *)

(** An uploaded file of the multipart form. *)
Record FileStorage : Type := { filename : string; content : string }.

Record Request : Type := {
  files_image : option FileStorage;   (* request.files['image'] *)
  files_images : list FileStorage;    (* request.files.getlist('images') *)
  form_confidence : option string     (* request.form.get('confidence') *)
}.

(** [base64.b64encode(bytes).decode('utf-8')], kept symbolic. *)
Inductive Base64 : Type := b64encode (bytes : string).

Record DetectResponse : Type := {
  dr_success : bool;
  dr_file_id : string;
  dr_filename : string;
  dr_timestamp : string;
  dr_detection_results : DetectionReport;
  dr_annotated_image : option Base64
}.

Record BatchEntry : Type := {
  be_filename : string;
  be_file_id : string;
  be_results : DetectionReport
}.

Record BatchResponse : Type := {
  br_success : bool;
  br_batch_id : string;
  br_processed_images : nat;
  br_results : list BatchEntry;
  br_timestamp : string
}.

(** The JSON document handed to [jsonify]. *)
Inductive Body : Type :=
| ErrorBody (error : string)
| DetectBody (r : DetectResponse)
| BatchBody (r : BatchResponse).

Record Response : Type := { status : nat; body : Body }.

Definition error_response (code : nat) (msg : string) : Response :=
  {| status := code; body := ErrorBody msg |}.

(** *** The world a handler runs in *)

(** The keyword arguments of one [model.predict] call; [save=True] and
    [exist_ok=True] are the same in every call. *)
Record PredictArgs : Type := {
  source : string;
  conf_threshold : Q;
  project : string;
  name : string
}.

(** The upload directory maps a file name to its bytes; the results
    directory maps a run name to the listing of that run's directory,
    in [os.listdir] order, each entry with its bytes. *)
Record FS : Type := {
  uploads : gmap string string;
  result_dirs : gmap string (list (string * string))
}.

Record World : Type := {
  model_loaded : bool;             (* model is not None *)
  fs : FS;
  uuid_count : nat;                (* uuid.uuid4() calls made so far *)
  clock_count : nat;               (* datetime.now() calls made so far *)
  predict_log : list PredictArgs   (* model.predict calls, oldest first *)
}.

(** A raised exception carries [str(e)]. *)
Inductive Exc (A : Type) : Type :=
| Raise (msg : string)
| Ok (a : A).
Arguments Raise {A} msg.
Arguments Ok {A} a.

(** The collaborators outside the repository. *)
Record Env : Type := {
  uuid4 : nat -> string;          (* str(uuid.uuid4()), by call number *)
  now : nat -> string;            (* datetime.now().isoformat(), by call number *)
  py_float : string -> Exc Q;     (* float(s) on a form value *)
  predict : PredictArgs -> FS -> Exc (list Result) * FS
}.

(** *** State and exception monad

    Effects performed before an exception is raised stay performed, so
    the world is returned on both outcomes. *)
Definition M (A : Type) : Type := World -> Exc A * World.

Definition ret {A} (a : A) : M A := fun w => (Ok a, w).

Definition raise {A} (msg : string) : M A := fun w => (Raise msg, w).

Definition bind {A B} (c : M A) (k : A -> M B) : M B :=
  fun w =>
    match c w with
    | (Raise msg, w') => (Raise msg, w')
    | (Ok a, w') => k a w'
    end.

Definition gets {A} (f : World -> A) : M A := fun w => (Ok (f w), w).

Definition modify (f : World -> World) : M unit := fun w => (Ok tt, f w).

Notation "'let*' x ':=' c1 'in' c2" := (bind c1 (fun x => c2))
  (at level 10, x name, c1 at level 100, c2 at level 200).

Definition set_fs (f : FS) (w : World) : World :=
  {| model_loaded := model_loaded w; fs := f;
     uuid_count := uuid_count w; clock_count := clock_count w;
     predict_log := predict_log w |}.

Section Handlers.
Variable E : Env.

Definition fresh_uuid : M string := fun w =>
  (Ok (uuid4 E (uuid_count w)),
   {| model_loaded := model_loaded w; fs := fs w;
      uuid_count := S (uuid_count w); clock_count := clock_count w;
      predict_log := predict_log w |}).

Definition isoformat_now : M string := fun w =>
  (Ok (now E (clock_count w)),
   {| model_loaded := model_loaded w; fs := fs w;
      uuid_count := uuid_count w; clock_count := S (clock_count w);
      predict_log := predict_log w |}).

(** [file.save(os.path.join(UPLOAD_FOLDER, filename))] *)
Definition save_upload (file : FileStorage) (filename : string) : M unit :=
  modify (fun w =>
    set_fs {| uploads := <[filename := content file]> (uploads (fs w));
              result_dirs := result_dirs (fs w) |} w).

(** [if os.path.exists(filepath): os.remove(filepath)] *)
Definition cleanup_upload (filename : string) : M unit :=
  modify (fun w =>
    match uploads (fs w) !! filename with
    | Some _ =>
        set_fs {| uploads := delete filename (uploads (fs w));
                  result_dirs := result_dirs (fs w) |} w
    | None => w
    end).

(** [model.predict(source=..., conf=..., save=True, project=...,
    name=..., exist_ok=True)] *)
Definition model_predict (a : PredictArgs) : M (list Result) := fun w =>
  let '(r, f) := predict E a (fs w) in
  (r, {| model_loaded := model_loaded w; fs := f;
         uuid_count := uuid_count w; clock_count := clock_count w;
         predict_log := predict_log w ++ [a] |}).

(** [float(request.form.get('confidence', 0.25))] *)
Definition confidence_of_form (req : Request) : M Q :=
  match form_confidence req with
  | None => ret (1 # 4)%Q
  | Some s =>
      match py_float E s with
      | Raise msg => raise msg
      | Ok q => ret q
      end
  end.

(** The [try ... except Exception as e] around a handler body. *)
Definition run_handler (prefix : string) (c : M Response)
    : World -> Response * World :=
  fun w =>
    match c w with
    | (Ok r, w') => (r, w')
    | (Raise msg, w') => (error_response 500 (prefix ++ msg), w')
    end.

(** [for result_file in os.listdir(result_dir): if
    result_file.lower().endswith(('.jpg', '.jpeg', '.png')): ... break] *)
Definition find_annotated (listing : list (string * string))
    : option (string * string) :=
  List.find
    (fun e => existsb (endswith (lower (fst e))) [".jpg"; ".jpeg"; ".png"])
    listing.

Definition detect_plastic_body (req : Request) : M Response :=
  let* loaded := gets model_loaded in
  if negb loaded then ret (error_response 500 "Model not loaded") else
  match files_image req with
  | None => ret (error_response 400 "No image file provided")
  | Some file =>
    if decide (filename file = "")
    then ret (error_response 400 "No image file selected") else
    let* file_id := fresh_uuid in
    let staged := file_id ++ ".jpg" in
    let filepath := path_join UPLOAD_FOLDER staged in
    let* _ := save_upload file staged in
    let* confidence_threshold := confidence_of_form req in
    let* results :=
      model_predict {| source := filepath;
                       conf_threshold := confidence_threshold;
                       project := RESULTS_FOLDER;
                       name := file_id |} in
    let detection_data := process_detection_results results in
    let* annotated :=
      gets (fun w =>
        match result_dirs (fs w) !! file_id with
        | Some listing => find_annotated listing
        | None => None
        end) in
    let annotated_image_b64 :=
      match annotated with
      | Some (_, bytes) => Some (b64encode bytes)
      | None => None
      end in
    let* timestamp := isoformat_now in
    let response :=
      {| dr_success := true;
         dr_file_id := file_id;
         dr_filename := filename file;
         dr_timestamp := timestamp;
         dr_detection_results := detection_data;
         dr_annotated_image := annotated_image_b64 |} in
    let* _ := cleanup_upload staged in
    ret {| status := 200; body := DetectBody response |}
  end.

(** POST /api/detect *)
Definition detect_plastic (req : Request) : World -> Response * World :=
  run_handler "Detection failed: " (detect_plastic_body req).

(** [for i, file in enumerate(files)], started at index [i]. *)
Fixpoint batch_loop (batch_id : string) (i : nat) (files : list FileStorage)
    (batch_results : list BatchEntry) : M (list BatchEntry) :=
  match files with
  | [] => ret batch_results
  | file :: rest =>
    if decide (filename file = "")
    then batch_loop batch_id (S i) rest batch_results else
    let file_id := batch_id ++ "_" ++ pretty i in
    let staged := file_id ++ ".jpg" in
    let filepath := path_join UPLOAD_FOLDER staged in
    let* _ := save_upload file staged in
    let* results :=
      model_predict {| source := filepath;
                       conf_threshold := (1 # 4)%Q;
                       project := RESULTS_FOLDER;
                       name := file_id |} in
    let detection_data := process_detection_results results in
    let entry :=
      {| be_filename := filename file;
         be_file_id := file_id;
         be_results := detection_data |} in
    let* _ := cleanup_upload staged in
    batch_loop batch_id (S i) rest (batch_results ++ [entry])
  end.

Definition batch_detect_body (req : Request) : M Response :=
  let* loaded := gets model_loaded in
  if negb loaded then ret (error_response 500 "Model not loaded") else
  let files := files_images req in
  match files with
  | [] => ret (error_response 400 "No image files provided")
  | _ :: _ =>
    let* batch_id := fresh_uuid in
    let* batch_results := batch_loop batch_id 0 files [] in
    let* timestamp := isoformat_now in
    ret {| status := 200;
           body := BatchBody
             {| br_success := true;
                br_batch_id := batch_id;
                br_processed_images := length batch_results;
                br_results := batch_results;
                br_timestamp := timestamp |} |}
  end.

(** POST /api/batch-detect *)
Definition batch_detect (req : Request) : World -> Response * World :=
  run_handler "Batch processing failed: " (batch_detect_body req).

End Handlers.

End Orchestrator.

(** ** Concrete collaborators

    A small deterministic environment on which the handlers can be
    evaluated. *)

Module Demo.
Import Normalizer Orchestrator.

Definition digit_of (c : ascii) : option Z :=
  let n := nat_of_ascii c in
  if ((48 <=? n) && (n <=? 57))%nat then Some (Z.of_nat (n - 48)) else None.

(** Decimal digits with at most one point and at least one digit. *)
Fixpoint scan_decimal (s : string) (seen_dot : bool) (ndigits : nat)
    (mant : Z) (scale : positive) : option Q :=
  match s with
  | EmptyString => if (ndigits =? 0)%nat then None else Some (mant # scale)
  | String c s' =>
    match digit_of c with
    | Some d =>
        scan_decimal s' seen_dot (S ndigits) (mant * 10 + d)
          (if seen_dot then (scale * 10)%positive else scale)
    | None =>
        if Ascii.eqb c "."%char && negb seen_dot
        then scan_decimal s' true ndigits mant scale
        else None
    end
  end.

(** [float(s)] on the plain decimal fragment of Python's float grammar
    (optional sign, digits, optional point); anything else raises
    [ValueError] with CPython's message. *)
Definition decimal_float (s : string) : Exc Q :=
  let '(neg, digits) :=
    match s with
    | String "-"%char r => (true, r)
    | String "+"%char r => (false, r)
    | _ => (false, s)
    end in
  match scan_decimal digits false 0 0 1 with
  | Some q => Ok (Qred (if neg then - q else q))
  | None => Raise ("could not convert string to float: '" ++ s ++ "'")
  end.

(** A stand-in detector: every byte of the staged image is a candidate
    detection whose confidence is the byte's code modulo 100, in
    hundredths; candidates below the threshold are dropped.  It writes
    an annotated copy under the run's results directory and never
    raises. *)
Definition candidate (i : nat) (c : ascii) : Row * Q * Q :=
  let z := Z.of_nat i in
  ({| r0 := inject_Z z; r1 := inject_Z z;
      r2 := inject_Z (z + 10); r3 := inject_Z (z + 10) |},
   Qred (Z.of_nat (nat_of_ascii c mod 100) # 100),
   0%Q).

Definition toy_predict (a : PredictArgs) (f : FS)
    : Exc (list Result) * FS :=
  let key :=
    substring (String.length UPLOAD_FOLDER + 1)
      (String.length (source a)) (source a) in
  let bytes := default "" (uploads f !! key) in
  let kept :=
    List.filter (fun r => Qle_bool (conf_threshold a) (snd (fst r)))
      (imap candidate (list_ascii_of_string bytes)) in
  (Ok [ {| boxes := Some (boxes_of kept) |} ],
   {| uploads := uploads f;
      result_dirs := <[name a := [(key, bytes)]]> (result_dirs f) |}).

Definition toy_env : Env :=
  {| uuid4 := fun n => "00000000-0000-4000-8000-" ++ pretty n;
     now := fun n => "2024-01-01T00:00:" ++ pretty n;
     py_float := decimal_float;
     predict := toy_predict |}.

(** A started server: model loaded, both directories empty. *)
Definition fresh_world : World :=
  {| model_loaded := true;
     fs := {| uploads := ∅; result_dirs := ∅ |};
     uuid_count := 0;
     clock_count := 0;
     predict_log := [] |}.

Definition image (name bytes : string) : FileStorage :=
  {| filename := name; content := bytes |}.

Definition single_request (file : option FileStorage)
    (confidence : option string) : Request :=
  {| files_image := file; files_images := []; form_confidence := confidence |}.

Definition batch_request (files : list FileStorage)
    (confidence : option string) : Request :=
  {| files_image := None; files_images := files;
     form_confidence := confidence |}.

(** Detector output with the given confidences, one unit square each. *)
Definition unit_boxes (confidences : list Q) : Boxes :=
  boxes_of
    (map (fun c => ({| r0 := 0; r1 := 0; r2 := 1; r3 := 1 |}, c, 0%Q))
         confidences).

Definition detections_with (confidences : list Q) : list Result :=
  [ {| boxes := Some (unit_boxes confidences) |} ].


End Demo.

(** ** Properties as the specification words them *)

Module Properties.
Import Num Normalizer Orchestrator.

(** The [Boxes] object the normaliser goes on to read: [None] on the
    three zero-detection inputs (empty results list, [boxes] absent,
    [len(boxes) == 0]). *)
Definition detected_boxes (results : list Result) : option Boxes :=
  match results with
  | [] => None
  | result :: _ =>
    match boxes result with
    | None => None
    | Some bxs => if (boxes_len bxs =? 0)%nat then None else Some bxs
    end
  end.

(** Mean of a sequence, [0.0] when it is empty. *)
Definition mean_or_zero (l : list Q) : Q :=
  match l with [] => 0%Q | _ :: _ => np_mean l end.



(** [enumerate(files)] continued from index [i]. *)
Definition enumerate_from (i : nat) (files : list FileStorage)
    : list (nat * FileStorage) :=
  zip (seq i (length files)) files.

(** The submitted files that are not skipped, in submission order. *)
Definition named (files : list FileStorage) : list FileStorage :=
  filter (fun file => filename file <> "") files.

(** The same with the position each had in the submission. *)
Definition named_from (i : nat) (files : list FileStorage)
    : list (nat * FileStorage) :=
  filter (fun p => filename (snd p) <> "") (enumerate_from i files).

(** The per-image identifier of a batch and the detector call made for
    it. *)
Definition batch_file_id (batch_id : string) (i : nat) : string :=
  batch_id ++ "_" ++ pretty i.

Definition batch_call (batch_id : string) (i : nat) : PredictArgs :=
  {| source := path_join UPLOAD_FOLDER (batch_file_id batch_id i ++ ".jpg");
     conf_threshold := (1 # 4)%Q;
     project := RESULTS_FOLDER;
     name := batch_file_id batch_id i |}.

(** The world after one [uuid.uuid4()] and after one [datetime.now()]. *)
Definition bump_uuid (w : World) : World :=
  {| model_loaded := model_loaded w; fs := fs w;
     uuid_count := S (uuid_count w); clock_count := clock_count w;
     predict_log := predict_log w |}.

Definition bump_clock (w : World) : World :=
  {| model_loaded := model_loaded w; fs := fs w;
     uuid_count := uuid_count w; clock_count := S (clock_count w);
     predict_log := predict_log w |}.

(** What a detector call returned, nothing if it raised. *)
Definition predict_results (E : Env) (a : PredictArgs) (f : FS)
    : list Result :=
  match fst (predict E a f) with Ok rs => rs | Raise _ => [] end.

(** An entry of the batch response reports the file submitted at a
    given position: it carries its name and identifier, and its report
    normalises what the detector returned for the staged copy. *)
Definition entry_reports (E : Env) (batch_id : string) (entry : BatchEntry)
    (p : nat * FileStorage) : Prop :=
  be_filename entry = filename (snd p)
  /\ be_file_id entry = batch_file_id batch_id (fst p)
  /\ exists f,
       uploads f !! (batch_file_id batch_id (fst p) ++ ".jpg")
         = Some (content (snd p))
       /\ be_results entry
          = process_detection_results
              (predict_results E (batch_call batch_id (fst p)) f).

(** The detector returns on every call. *)
Definition detector_reliable (E : Env) : Prop :=
  forall a f, exists rs f', predict E a f = (Ok rs, f').

End Properties.

(** ** Start-up and health *)

Module Service.
Import Normalizer Orchestrator Properties.

Definition MODEL_PATH : string := "D:/plastic_detection_project/best.pt".

(** What [load_model] consults outside the repository: the presence of
    a weights file, whether the [YOLO] constructor returns or raises on
    given weights, and whether [print] returns or raises on a line (it
    raises when standard output cannot encode the line). *)
Record Weights : Type := {
  path_exists : string -> bool;
  YOLO : string -> Exc unit;
  py_print : string -> Exc unit
}.

(** [model = YOLO(...)] having returned. *)
Definition set_model (w : World) : World :=
  {| model_loaded := true; fs := fs w;
     uuid_count := uuid_count w; clock_count := clock_count w;
     predict_log := predict_log w |}.

(** The lines [load_model] prints. *)
Definition loaded_line : string :=
  "✅ Model loaded successfully from " ++ MODEL_PATH.
Definition not_found_line : string :=
  "❌ Model file not found: " ++ MODEL_PATH.
Definition fallback_line : string :=
  "⚠️  Using pretrained YOLOv8n model as fallback".
Definition error_line (e : string) : string :=
  "❌ Error loading model: " ++ e.

(** A collaborator's outcome as a step of the handler monad. *)
Definition outcome {A} (x : Exc A) : M A :=
  match x with Raise msg => raise msg | Ok a => ret a end.

(** The body of the [try] of [load_model]. *)
Definition load_model_body (W : Weights) : M bool :=
  if path_exists W MODEL_PATH then
    let* _ := outcome (YOLO W MODEL_PATH) in
    let* _ := modify set_model in
    let* _ := outcome (py_print W loaded_line) in
    ret true
  else
    let* _ := outcome (py_print W not_found_line) in
    let* _ := outcome (YOLO W "yolov8n.pt") in
    let* _ := modify set_model in
    let* _ := outcome (py_print W fallback_line) in
    ret false.

(** [load_model()]: the returned flag, or the exception that escapes
    the [except] clause, and the world after it. *)
Definition load_model (W : Weights) (w : World) : Exc bool * World :=
  match load_model_body W w with
  | (Ok flag, w') => (Ok flag, w')
  | (Raise e, w') =>
      match py_print W (error_line e) with
      | Ok _ => (Ok false, w')
      | Raise e' => (Raise e', w')
      end
  end.

Record Health : Type := {
  h_status : string;
  h_model_loaded : bool;
  h_timestamp : string
}.

(** GET /api/health *)
Definition health_check (E : Env) (w : World) : Health * World :=
  ({| h_status := "healthy";
      h_model_loaded := model_loaded w;
      h_timestamp := now E (clock_count w) |},
   bump_clock w).

End Service.

(** ** Further vocabulary for the properties of the code *)

Module Vocabulary.
Import Num Normalizer Orchestrator Properties.

(** Low below Medium below High. *)
Definition severity_rank (s : Severity) : nat :=
  match s with Low => 0 | Medium => 1 | High => 2 end.

(** The detector leaves the upload directory as it finds it. *)
Definition detector_preserves_uploads (E : Env) : Prop :=
  forall a f, uploads (snd (predict E a f)) = uploads f.

(** The detector raises [msg] on every call. *)
Definition detector_failing (E : Env) (msg : string) : Prop :=
  forall a f, fst (predict E a f) = Raise msg.

(** The suffixes the single-image handler accepts for an annotated
    image. *)
Definition image_suffixes : list string := [".jpg"; ".jpeg"; ".png"].

(** A file name that, lowercased, ends in one of them. *)
Definition image_name (name : string) : Prop :=
  exists stem ext, In ext image_suffixes /\ lower name = stem ++ ext.

(** The name under which the single-image handler stages its upload,
    and the detector call it makes with threshold [q]. *)
Definition staged_name (E : Env) (w : World) : string :=
  uuid4 E (uuid_count w) ++ ".jpg".

Definition single_call (E : Env) (w : World) (q : Q) : PredictArgs :=
  {| source := path_join UPLOAD_FOLDER (staged_name E w);
     conf_threshold := q;
     project := RESULTS_FOLDER;
     name := uuid4 E (uuid_count w) |}.

(** The file system once the upload of [file] is staged. *)
Definition staged_fs (E : Env) (w : World) (file : FileStorage) : FS :=
  {| uploads := <[staged_name E w := content file]> (uploads (fs w));
     result_dirs := result_dirs (fs w) |}.

(** [float(request.form.get('confidence', 0.25))]: the threshold, or
    the exception [float] raises on the form value. *)
Definition parsed_threshold (E : Env) (req : Request) : Exc Q :=
  match form_confidence req with
  | None => Ok (1 # 4)%Q
  | Some s => py_float E s
  end.

(** The worlds a single-image request passes through: upload staged;
    detector called with threshold [q], leaving file system [f'];
    response built and staged upload removed. *)
Definition world_after_staging (E : Env) (w : World) (file : FileStorage)
    : World :=
  {| model_loaded := model_loaded w; fs := staged_fs E w file;
     uuid_count := S (uuid_count w); clock_count := clock_count w;
     predict_log := predict_log w |}.

Definition world_after_predict (E : Env) (w : World) (q : Q) (f' : FS)
    : World :=
  {| model_loaded := model_loaded w; fs := f';
     uuid_count := S (uuid_count w); clock_count := clock_count w;
     predict_log := predict_log w ++ [single_call E w q] |}.

Definition world_after_cleanup (E : Env) (w : World) (q : Q) (f' : FS)
    : World :=
  {| model_loaded := model_loaded w;
     fs := {| uploads := delete (staged_name E w) (uploads f');
              result_dirs := result_dirs f' |};
     uuid_count := S (uuid_count w); clock_count := S (clock_count w);
     predict_log := predict_log w ++ [single_call E w q] |}.

(** The annotated image the response embeds: the first image file of
    the run's results directory, if there is one. *)
Definition annotated_image_of (E : Env) (w : World) (f' : FS)
    : option Base64 :=
  match result_dirs f' !! uuid4 E (uuid_count w) with
  | Some listing =>
      match find_annotated listing with
      | Some (_, bytes) => Some (b64encode bytes)
      | None => None
      end
  | None => None
  end.

(** The 200 response of a single-image request. *)
Definition success_response (E : Env) (w : World) (file : FileStorage)
    (rs : list Result) (f' : FS) : Response :=
  {| status := 200;
     body := DetectBody
       {| dr_success := true;
          dr_file_id := uuid4 E (uuid_count w);
          dr_filename := filename file;
          dr_timestamp := now E (clock_count w);
          dr_detection_results := process_detection_results rs;
          dr_annotated_image := annotated_image_of E w f' |} |}.

(** A [Boxes] object with its class array replaced. *)
Definition with_classes (bxs : Boxes) (classes : option (list Q)) : Boxes :=
  {| boxes_len := boxes_len bxs; conf := conf bxs; cls := classes;
     xyxy := xyxy bxs |}.

End Vocabulary.

(** Further inputs for evaluation. *)

Module DemoMore.
Import Normalizer Orchestrator Service Demo.

(** A detector that raises on every call and touches nothing. *)
Definition broken_env : Env :=
  {| uuid4 := uuid4 toy_env;
     now := now toy_env;
     py_float := py_float toy_env;
     predict := fun _ f => (Raise "CUDA out of memory", f) |}.

(** No trained weights on disk; the pretrained fallback loads and
    standard output takes every line. *)
Definition fallback_weights : Weights :=
  {| path_exists := fun _ => false;
     YOLO := fun _ => Ok tt;
     py_print := fun _ => Ok tt |}.

(** The same with a standard output that cannot encode the lines. *)
Definition mute_weights : Weights :=
  {| path_exists := fun _ => false;
     YOLO := fun _ => Ok tt;
     py_print := fun _ =>
       Raise "'charmap' codec can't encode character" |}.

(** A server whose model never loaded. *)
Definition unloaded_world : World :=
  {| model_loaded := false;
     fs := {| uploads := ∅; result_dirs := ∅ |};
     uuid_count := 0;
     clock_count := 0;
     predict_log := [] |}.

(** Two detections whose arrays disagree in length: one confidence,
    no class array, two rows. *)
Definition ragged_boxes : Boxes :=
  {| boxes_len := 2;
     conf := Some [(9 # 10)%Q];
     cls := None;
     xyxy := Some [ {| r0 := 0; r1 := 0; r2 := 1; r3 := 1 |};
                    {| r0 := 2; r1 := 2; r2 := 3; r3 := 3 |} ] |}.

End DemoMore.

(** ** The arithmetic of the confidence field

    [round(float(np.mean(confidences)), 2)] on a float32 array, with
    the binary32 and binary64 operations of IEEE 754 (round to nearest,
    ties to even).  A [spec_float] is a number, an infinity or a NaN;
    the same triple stands for a binary32 value and for the binary64
    value [float(.)] makes of it. *)

Module Float32.
Import Num.

Definition f32_add : spec_float -> spec_float -> spec_float := SFadd 24 128.
Definition f32_div : spec_float -> spec_float -> spec_float := SFdiv 24 128.
Definition f32_of_Z (z : Z) : spec_float := binary_normalize 24 128 z 0 false.


(** NumPy's float32 summation ([FLOAT_pairwise_sum]): fewer than 8
    elements are added one by one; up to 128 with eight accumulators
    that are then added in pairs, the leftover elements one by one;
    longer arrays are split in two at a multiple of 8. *)
Record Acc8 : Type := {
  a0 : spec_float; a1 : spec_float; a2 : spec_float; a3 : spec_float;
  a4 : spec_float; a5 : spec_float; a6 : spec_float; a7 : spec_float
}.

Definition add8 (r x : Acc8) : Acc8 :=
  {| a0 := f32_add (a0 r) (a0 x); a1 := f32_add (a1 r) (a1 x);
     a2 := f32_add (a2 r) (a2 x); a3 := f32_add (a3 r) (a3 x);
     a4 := f32_add (a4 r) (a4 x); a5 := f32_add (a5 r) (a5 x);
     a6 := f32_add (a6 r) (a6 x); a7 := f32_add (a7 r) (a7 x) |}.

Definition sum8 (r : Acc8) : spec_float :=
  f32_add (f32_add (f32_add (a0 r) (a1 r)) (f32_add (a2 r) (a3 r)))
          (f32_add (f32_add (a4 r) (a5 r)) (f32_add (a6 r) (a7 r))).

(** [for (i = 8; i < n - (n % 8); i += 8) r[j] += a[i + j]] *)
Fixpoint unrolled (r : Acc8) (l : list spec_float)
    : Acc8 * list spec_float :=
  match l with
  | x0 :: x1 :: x2 :: x3 :: x4 :: x5 :: x6 :: x7 :: l' =>
      unrolled (add8 r {| a0 := x0; a1 := x1; a2 := x2; a3 := x3;
                          a4 := x4; a5 := x5; a6 := x6; a7 := x7 |}) l'
  | _ => (r, l)
  end.

(** [res = 0.; for (i = 0; i < n; i++) res += a[i]] *)
Definition sum_one_by_one (res : spec_float) (l : list spec_float)
    : spec_float :=
  fold_left f32_add l res.

Definition sum_block (a : list spec_float) : spec_float :=
  match a with
  | x0 :: x1 :: x2 :: x3 :: x4 :: x5 :: x6 :: x7 :: l =>
      let '(r, rest) :=
        unrolled {| a0 := x0; a1 := x1; a2 := x2; a3 := x3;
                    a4 := x4; a5 := x5; a6 := x6; a7 := x7 |} l in
      sum_one_by_one (sum8 r) rest
  | _ => sum_one_by_one (S754_zero false) a
  end.

Definition PW_BLOCKSIZE : nat := 128.

(** The recursion halves the array; [fuel] bounds its depth and the
    length of the array is always enough. *)
Fixpoint pairwise_sum (fuel : nat) (a : list spec_float) : spec_float :=
  let n := length a in
  match fuel with
  | S fuel' =>
      if (n <=? PW_BLOCKSIZE)%nat then sum_block a
      else
        let n2 := (n / 2 - (n / 2) mod 8)%nat in
        f32_add (pairwise_sum fuel' (firstn n2 a))
                (pairwise_sum fuel' (skipn n2 a))
  | O => sum_block a
  end.

(** [np.add.reduce]: the result starts at 0 and the sum is added. *)
Definition np_sum (a : list spec_float) : spec_float :=
  f32_add (S754_zero false) (pairwise_sum (length a) a).

(** [np.mean] of a float32 array: the float32 sum divided, in
    float32, by the count (a float32 itself below 2^24). *)
Definition np_mean (a : list spec_float) : spec_float :=
  f32_div (np_sum a) (f32_of_Z (Z.of_nat (length a))).




(** [float(x)] of a NumPy float32: the same number as a double. *)
Definition py_float (x : spec_float) : spec_float := x.



(** [float(np.mean(confidences)) if len(confidences) > 0 else 0.0] *)
Definition avg_confidence (confidences : list spec_float) : spec_float :=
  match confidences with
  | [] => S754_zero false
  | _ :: _ => py_float (np_mean confidences)
  end.







End Float32.

Import Num Normalizer Orchestrator Demo Properties.
Import Service Vocabulary DemoMore.

(** ** Rounding *)

Section Rounding.
Local Open Scope Q_scope.

Lemma round_half_even_bounds (x : Q) :
  inject_Z (round_half_even x) - (1 # 2) <= x
  /\ x <= inject_Z (round_half_even x) + (1 # 2).
Proof.
  unfold round_half_even.
  pose proof (Qfloor_le x) as Hlo.
  pose proof (Qlt_floor x) as Hhi.
  rewrite inject_Z_plus in Hhi.
  change (inject_Z 1) with 1 in Hhi.
  destruct (Qcompare_spec (x - inject_Z (Qfloor x)) (1 # 2)) as [He | Hl | Hg].
  - destruct (Z.even (Qfloor x)).
    + split; lra.
    + rewrite inject_Z_plus. change (inject_Z 1) with 1. split; lra.
  - split; lra.
  - rewrite inject_Z_plus. change (inject_Z 1) with 1. split; lra.
Qed.


Lemma round2_value (x : Q) :
  round2 x == inject_Z (round_half_even (x * 100)) / 100.
Proof. unfold round2. apply Qred_correct. Qed.


End Rounding.

(** ** The result normaliser *)

Section NormalizerFacts.

Lemma process_no_detections (results : list Result) :
  detected_boxes results = None ->
  process_detection_results results = no_plastic_report.
Proof.
  unfold detected_boxes, process_detection_results.
  destruct results as [| result rest]; [reflexivity |].
  destruct (boxes result) as [bxs |]; [| reflexivity].
  destruct (boxes_len bxs =? 0)%nat; [reflexivity | discriminate].
Qed.

Lemma process_detected (results : list Result) (bxs : Boxes) :
  detected_boxes results = Some bxs ->
  process_detection_results results =
    let confidences := numpy_or_empty (conf bxs) in
    let class_names :=
      replicate (length (numpy_or_empty (cls bxs))) "plastic" in
    {| detections := boxes_len bxs;
       confidence :=
         round2 (if (0 <? length confidences)%nat
                 then np_mean confidences else 0%Q);
       plastic_types := list_set class_names;
       bounding_boxes :=
         imap (make_box confidences class_names) (numpy_or_empty (xyxy bxs));
       environmental_impact :=
         {| severity := severity_of (boxes_len bxs);
            recommendation := recommendations (severity_of (boxes_len bxs)) |}
    |}.
Proof.
  unfold detected_boxes, process_detection_results.
  destruct results as [| result rest]; [discriminate |].
  destruct (boxes result) as [b |]; [| discriminate].
  destruct (boxes_len b =? 0)%nat; [discriminate |].
  intros [= ->]. reflexivity.
Qed.

Lemma detected_boxes_nonempty (results : list Result) (bxs : Boxes) :
  detected_boxes results = Some bxs -> boxes_len bxs <> 0.
Proof.
  unfold detected_boxes.
  destruct results as [| result rest]; [discriminate |].
  destruct (boxes result) as [b |]; [| discriminate].
  destruct (Nat.eqb_spec (boxes_len b) 0); [discriminate |].
  intros [= ->]. assumption.
Qed.

(** The three cases of the conditional expression that picks the
    severity. *)
Lemma severity_of_cases (c : nat) :
  (5 < c -> severity_of c = High)
  /\ (1 < c <= 5 -> severity_of c = Medium)
  /\ (c <= 1 -> severity_of c = Low).
Proof.
  unfold severity_of.
  destruct (Nat.ltb_spec 5 c), (Nat.ltb_spec 1 c); repeat split; intros;
    first [reflexivity | lia].
Qed.

(** C1. Whatever the detector returned, the severity of the report is
    High when its detection count exceeds 5, Medium when the count is
    above 1 and at most 5, and Low when the count is at most 1. *)
Theorem severity_thresholds (results : list Result) :
  let rep := process_detection_results results in
  let c := detections rep in
  (5 < c -> severity (environmental_impact rep) = High)
  /\ (1 < c <= 5 -> severity (environmental_impact rep) = Medium)
  /\ (c <= 1 -> severity (environmental_impact rep) = Low).
Proof.
  cbv zeta.
  destruct (detected_boxes results) as [bxs |] eqn:Hd.
  - rewrite (process_detected _ _ Hd). cbn. apply severity_of_cases.
  - rewrite (process_no_detections _ Hd). cbn.
    repeat split; intros; first [reflexivity | lia].
Qed.

(** The boundary counts 1, 2, 5 and 6. *)
Lemma severity_thresholds_witness :
  let report n :=
    process_detection_results (detections_with (replicate n (1 # 2)%Q)) in
  (detections (report 1) = 1 /\ severity (environmental_impact (report 1)) = Low)
  /\ (detections (report 2) = 2 /\ severity (environmental_impact (report 2)) = Medium)
  /\ (detections (report 5) = 5 /\ severity (environmental_impact (report 5)) = Medium)
  /\ (detections (report 6) = 6 /\ severity (environmental_impact (report 6)) = High).
Proof.
  cbv zeta.
  split; [| split; [| split]]; (split; [reflexivity |]).
  - apply (severity_thresholds
             (detections_with (replicate 1 (1 # 2)%Q))). cbn. lia.
  - apply (severity_thresholds
             (detections_with (replicate 2 (1 # 2)%Q))). cbn. lia.
  - apply (severity_thresholds
             (detections_with (replicate 5 (1 # 2)%Q))). cbn. lia.
  - apply (severity_thresholds
             (detections_with (replicate 6 (1 # 2)%Q))). cbn. lia.
Defined.

(** C2. On an empty results list, and on a first result whose boxes
    are absent or of length 0, the report has 0 detections, confidence
    0.0, no plastic types, no bounding boxes, severity Low and the
    recommendation "No plastic detected". *)
Theorem no_detections_report (results : list Result) :
  results = []
  \/ (exists result rest, results = result :: rest /\
        (boxes result = None
         \/ exists bxs, boxes result = Some bxs /\ boxes_len bxs = 0)) ->
  let rep := process_detection_results results in
  detections rep = 0
  /\ confidence rep = 0%Q
  /\ plastic_types rep = []
  /\ bounding_boxes rep = []
  /\ severity (environmental_impact rep) = Low
  /\ recommendation (environmental_impact rep) = "No plastic detected".
Proof.
  intros H. cbv zeta.
  assert (Hd : detected_boxes results = None).
  { destruct H as [-> | (result & rest & -> & [Hb | (bxs & Hb & Hlen)])].
    - reflexivity.
    - cbn. rewrite Hb. reflexivity.
    - cbn. rewrite Hb, Hlen. reflexivity. }
  rewrite (process_no_detections _ Hd). repeat split.
Qed.

Lemma no_detections_report_witness :
  let empty_boxes :=
    {| boxes_len := 0; conf := Some []; cls := Some []; xyxy := Some [] |} in
  detections (process_detection_results []) = 0
  /\ confidence (process_detection_results [ {| boxes := None |} ]) = 0%Q
  /\ recommendation (environmental_impact
       (process_detection_results [ {| boxes := Some empty_boxes |} ]))
     = "No plastic detected".
Proof.
  cbv zeta. split; [| split].
  - apply (no_detections_report []). left. reflexivity.
  - apply (no_detections_report [ {| boxes := None |} ]).
    right. eexists _, _. split; [reflexivity |]. left. reflexivity.
  - apply (no_detections_report
      [ {| boxes := Some {| boxes_len := 0; conf := Some []; cls := Some [];
                            xyxy := Some [] |} |} ]).
    right. eexists _, _. split; [reflexivity |].
    right. eexists. split; reflexivity.
Defined.


Lemma mean_guard (confidences : list Q) :
  (if (0 <? length confidences)%nat then np_mean confidences else 0%Q)
  = mean_or_zero confidences.
Proof. destruct confidences; reflexivity. Qed.




(** C8. In a report with at least one detection the recommendation is
    fixed by the severity: the High, Medium and Low literals of the
    [recommendations] dictionary. *)
Theorem recommendation_by_severity (results : list Result) :
  let rep := process_detection_results results in
  1 <= detections rep ->
  recommendation (environmental_impact rep)
  = match severity (environmental_impact rep) with
    | High => "Immediate cleanup required - High plastic pollution detected"
    | Medium => "Cleanup recommended - Moderate plastic pollution found"
    | Low => "Monitor area - Low level plastic pollution detected"
    end.
Proof.
  cbv zeta.
  destruct (detected_boxes results) as [bxs |] eqn:Hd.
  - rewrite (process_detected _ _ Hd). cbn. intros _.
    destruct (severity_of (boxes_len bxs)); reflexivity.
  - rewrite (process_no_detections _ Hd). cbn. lia.
Qed.

Lemma recommendation_by_severity_witness :
  let report n :=
    process_detection_results (detections_with (replicate n (1 # 2)%Q)) in
  recommendation (environmental_impact (report 1))
    = "Monitor area - Low level plastic pollution detected"
  /\ recommendation (environmental_impact (report 3))
    = "Cleanup recommended - Moderate plastic pollution found"
  /\ recommendation (environmental_impact (report 6))
    = "Immediate cleanup required - High plastic pollution detected".
Proof.
  cbv zeta. split; [| split].
  - rewrite (recommendation_by_severity
               (detections_with (replicate 1 (1 # 2)%Q))); [reflexivity |].
    cbn. lia.
  - rewrite (recommendation_by_severity
               (detections_with (replicate 3 (1 # 2)%Q))); [reflexivity |].
    cbn. lia.
  - rewrite (recommendation_by_severity
               (detections_with (replicate 6 (1 # 2)%Q))); [reflexivity |].
    cbn. lia.
Defined.

End NormalizerFacts.

(** ** The single-image handler *)

Section SingleFacts.
Variable E : Env.

(** C6. With the model loaded, a request without an 'image' file is
    answered 400 "No image file provided" and one whose file has an
    empty filename 400 "No image file selected"; the world is left as
    it was, so nothing is staged and the detector is not called. *)
Theorem validation_errors (req : Request) (w : World) :
  model_loaded w = true ->
  (files_image req = None ->
   detect_plastic E req w
   = (error_response 400 "No image file provided", w))
  /\ (forall file, files_image req = Some file -> filename file = "" ->
      detect_plastic E req w
      = (error_response 400 "No image file selected", w)).
Proof.
  intros Hm. unfold detect_plastic, run_handler, detect_plastic_body, bind, gets.
  rewrite Hm. cbn. split.
  - intros ->. reflexivity.
  - intros file -> Hname. rewrite decide_True by exact Hname. reflexivity.
Qed.


(** On the path that returns 200 the staged upload is gone. *)
Lemma staged_file_removed_on_success (req : Request) (w : World) :
  status (fst (detect_plastic E req w)) = 200 ->
  uploads (fs (snd (detect_plastic E req w)))
    !! (uuid4 E (uuid_count w) ++ ".jpg") = None.
Proof.
  unfold detect_plastic, run_handler, detect_plastic_body, bind, gets.
  destruct (model_loaded w); cbn; [| discriminate].
  destruct (files_image req) as [file |]; cbn; [| discriminate].
  destruct (decide (filename file = "")); cbn; [discriminate |].
  unfold confidence_of_form.
  destruct (form_confidence req) as [s |]; cbn.
  - destruct (py_float E s) as [msg | q]; cbn; [discriminate |].
    unfold model_predict. cbn.
    destruct (predict E _ _) as [[msg | rs] f']; cbn; [discriminate |].
    intros _. destruct (uploads f' !! _) eqn:Hl; cbn.
    + apply lookup_delete_eq.
    + exact Hl.
  - unfold model_predict. cbn.
    destruct (predict E _ _) as [[msg | rs] f']; cbn; [discriminate |].
    intros _. destruct (uploads f' !! _) eqn:Hl; cbn.
    + apply lookup_delete_eq.
    + exact Hl.
Qed.

End SingleFacts.

Lemma validation_errors_witness :
  detect_plastic toy_env (single_request None (Some "0.5")) fresh_world
  = (error_response 400 "No image file provided", fresh_world)
  /\ detect_plastic toy_env
       (single_request (Some (image "" "")) None) fresh_world
     = (error_response 400 "No image file selected", fresh_world).
Proof.
  split.
  - apply (proj1 (validation_errors toy_env
                    (single_request None (Some "0.5")) fresh_world eq_refl)).
    reflexivity.
  - apply (proj2 (validation_errors toy_env
                    (single_request (Some (image "" "")) None)
                    fresh_world eq_refl) (image "" "")); reflexivity.
Defined.


(** C4 on the failure path. A request with an image and the form value
    confidence=abc is answered 500, and the upload staged for it is
    still in the upload directory afterwards. *)
Theorem staged_file_left_on_failure :
  let out :=
    detect_plastic toy_env
      (single_request (Some (image "river.jpg" "AZ!x")) (Some "abc"))
      fresh_world in
  status (fst out) = 500
  /\ uploads (fs fresh_world) !! "00000000-0000-4000-8000-0.jpg" = None
  /\ uploads (fs (snd out)) !! "00000000-0000-4000-8000-0.jpg" = Some "AZ!x".
Proof. cbv zeta. vm_compute. repeat split. Qed.

(** ** The batch handler *)

Section BatchFacts.
Variable E : Env.

Lemma named_from_cons_skipped (i : nat) (file : FileStorage)
    (rest : list FileStorage) :
  filename file = "" ->
  named_from i (file :: rest) = named_from (S i) rest.
Proof.
  intros Hname. unfold named_from, enumerate_from.
  cbn [length seq zip_with].
  rewrite filter_cons_False; [reflexivity |]. cbn. intros H. exact (H Hname).
Qed.

Lemma named_from_cons_kept (i : nat) (file : FileStorage)
    (rest : list FileStorage) :
  filename file <> "" ->
  named_from i (file :: rest) = (i, file) :: named_from (S i) rest.
Proof.
  intros Hname. unfold named_from, enumerate_from.
  cbn [length seq zip_with].
  rewrite filter_cons_True; [reflexivity |]. exact Hname.
Qed.

Lemma named_from_files (files : list FileStorage) :
  forall i, map snd (named_from i files) = named files.
Proof.
  induction files as [| file rest IH]; intros i; [reflexivity |].
  unfold named. destruct (decide (filename file = "")) as [Hname | Hname].
  - rewrite (named_from_cons_skipped _ _ _ Hname), IH.
    rewrite filter_cons_False; [reflexivity |]. intros H. exact (H Hname).
  - rewrite (named_from_cons_kept _ _ _ Hname). cbn [map snd]. rewrite IH.
    rewrite filter_cons_True; [reflexivity |]. exact Hname.
Qed.

(** Entries with empty filenames leave the accumulator and the world
    alone. *)
Lemma batch_loop_all_skipped (batch_id : string) (files : list FileStorage) :
  Forall (fun file => filename file = "") files ->
  forall i acc w, batch_loop E batch_id i files acc w = (Ok acc, w).
Proof.
  induction 1 as [| file rest Hname _ IH]; intros i acc w; [reflexivity |].
  cbn. rewrite decide_True by exact Hname. apply IH.
Qed.

(** The loop under a detector that returns: one entry and one detector
    call per named file, in order; identifiers, clock and model handle
    untouched. *)
Lemma batch_loop_reliable (batch_id : string) :
  detector_reliable E ->
  forall files i acc w,
  exists entries w',
    batch_loop E batch_id i files acc w = (Ok (acc ++ entries)%list, w')
    /\ Forall2 (entry_reports E batch_id) entries (named_from i files)
    /\ predict_log w'
       = (predict_log w
          ++ map (fun p => batch_call batch_id (fst p)) (named_from i files))%list
    /\ model_loaded w' = model_loaded w
    /\ uuid_count w' = uuid_count w
    /\ clock_count w' = clock_count w.
Proof.
  intros Hrel. induction files as [| file rest IH]; intros i acc w.
  - exists [], w. cbn. rewrite !app_nil_r. repeat split. constructor.
  - cbn [batch_loop].
    destruct (decide (filename file = "")) as [Hname | Hname].
    + destruct (IH (S i) acc w) as (entries & w' & Hrun & Hent & Hlog & Hrest).
      exists entries, w'. rewrite (named_from_cons_skipped _ _ _ Hname).
      repeat split; assumption || apply Hrest.
    + unfold bind at 1. unfold save_upload, modify.
      unfold bind at 1. unfold model_predict.
      cbn [fs set_fs uploads result_dirs model_loaded uuid_count clock_count
           predict_log].
      set (staged := (batch_id ++ "_" ++ pretty i) ++ ".jpg").
      set (f1 := {| uploads := <[staged := content file]> (uploads (fs w));
                    result_dirs := result_dirs (fs w) |}).
      set (call := {| source := path_join UPLOAD_FOLDER staged;
                      conf_threshold := (1 # 4)%Q;
                      project := RESULTS_FOLDER;
                      name := batch_id ++ "_" ++ pretty i |}).
      destruct (Hrel call f1) as (rs & f' & Hp).
      assert (Hres : predict_results E call f1 = rs)
        by (unfold predict_results; rewrite Hp; reflexivity).
      rewrite Hp. unfold bind at 1. unfold cleanup_upload, modify.
      match goal with
      | |- context [batch_loop E batch_id (S i) rest ?acc' ?w1] =>
          destruct (IH (S i) acc' w1)
            as (entries & w' & Hrun & Hent & Hlog & Hm & Hu & Hc)
      end.
      rewrite Hrun. rewrite <- app_assoc. cbn [app].
      eexists (_ :: entries), w'.
      rewrite (named_from_cons_kept _ _ _ Hname).
      split; [reflexivity |].
      split; [| split; [| split; [| split]]].
      * constructor; [| exact Hent].
        split; [reflexivity |]. split; [reflexivity |].
        exists f1. cbn [fst snd be_results]. split.
        -- apply lookup_insert_eq.
        -- rewrite <- Hres. reflexivity.
      * rewrite Hlog. cbn [fs set_fs uploads]. 
        destruct (uploads f' !! staged); cbn; rewrite <- app_assoc; reflexivity.
      * rewrite Hm. destruct (uploads _ !! staged); reflexivity.
      * rewrite Hu. destruct (uploads _ !! staged); reflexivity.
      * rewrite Hc. destruct (uploads _ !! staged); reflexivity.
Qed.

(** Every detector call of the loop uses threshold 0.25, whether or not
    the detector returns. *)
Lemma batch_loop_thresholds (batch_id : string) (files : list FileStorage) :
  forall i acc w,
  exists calls,
    predict_log (snd (batch_loop E batch_id i files acc w))
    = (predict_log w ++ calls)%list
    /\ Forall (fun a => conf_threshold a = (1 # 4)%Q) calls.
Proof.
  induction files as [| file rest IH]; intros i acc w.
  - exists []. cbn. rewrite app_nil_r. split; [reflexivity | constructor].
  - cbn [batch_loop].
    destruct (decide (filename file = "")) as [Hname | Hname]; [apply IH |].
    unfold bind at 1. unfold save_upload, modify.
    unfold bind at 1. unfold model_predict.
    cbn [fs set_fs uploads result_dirs model_loaded uuid_count clock_count
         predict_log].
    destruct (predict E _ _) as [[msg | rs] f'].
    + eexists [_]. cbn. split; [reflexivity |].
      constructor; [reflexivity | constructor].
    + unfold bind at 1. unfold cleanup_upload, modify.
      match goal with
      | |- context [batch_loop E batch_id (S i) rest ?acc' ?w1] =>
          destruct (IH (S i) acc' w1) as (calls & Hlog & Hall);
          assert (Hw1 : exists a, predict_log w1 = (predict_log w ++ [a])%list
                                  /\ conf_threshold a = (1 # 4)%Q)
      end.
      { eexists. cbn [fs set_fs uploads].
        destruct (uploads f' !! _); cbn; split; reflexivity. }
      destruct Hw1 as (a & Hw1 & Ha).
      exists (a :: calls). rewrite Hlog, Hw1, <- app_assoc.
      split; [reflexivity | constructor; assumption].
Qed.

(** The handler past its two guards. *)
Lemma batch_detect_run (req : Request) (w : World) :
  model_loaded w = true ->
  files_images req <> [] ->
  batch_detect E req w
  = let batch_id := uuid4 E (uuid_count w) in
    match batch_loop E batch_id 0 (files_images req) [] (bump_uuid w) with
    | (Raise msg, w') =>
        (error_response 500 ("Batch processing failed: " ++ msg), w')
    | (Ok entries, w') =>
        ({| status := 200;
            body := BatchBody
              {| br_success := true;
                 br_batch_id := batch_id;
                 br_processed_images := length entries;
                 br_results := entries;
                 br_timestamp := now E (clock_count w') |} |},
         bump_clock w')
    end.
Proof.
  intros Hm Hne.
  unfold batch_detect, run_handler, batch_detect_body.
  unfold bind at 1. unfold gets. rewrite Hm. cbn [negb].
  destruct (files_images req) as [| file rest]; [congruence |].
  unfold bind at 1. unfold fresh_uuid. fold (bump_uuid w). cbv zeta.
  unfold bind at 1.
  destruct (batch_loop E _ 0 (file :: rest) [] _) as [[msg | entries] w'];
    reflexivity.
Qed.

(** Whatever the form carries, the detector calls of a batch request
    all use threshold 0.25. *)
Lemma batch_threshold_fixed (req : Request) (w : World) :
  exists calls,
    predict_log (snd (batch_detect E req w)) = (predict_log w ++ calls)%list
    /\ Forall (fun a => conf_threshold a = (1 # 4)%Q) calls.
Proof.
  destruct (model_loaded w) eqn:Hm.
  - destruct (files_images req) as [| file rest] eqn:Hfiles.
    + exists []. unfold batch_detect, run_handler, batch_detect_body, bind, gets.
      rewrite Hm, Hfiles. cbn. rewrite app_nil_r.
      split; [reflexivity | constructor].
    + assert (Hne : files_images req <> []) by congruence.
      rewrite (batch_detect_run _ _ Hm Hne). cbv zeta.
      destruct (batch_loop_thresholds (uuid4 E (uuid_count w))
                  (files_images req) 0 [] (bump_uuid w))
        as (calls & Hlog & Hall).
      exists calls. split; [| exact Hall].
      destruct (batch_loop E _ 0 _ [] _) as [[msg | entries] w'];
        exact Hlog.
  - exists []. unfold batch_detect, run_handler, batch_detect_body, bind, gets.
    rewrite Hm. cbn. rewrite app_nil_r. split; [reflexivity | constructor].
Qed.

(** With a non-empty submission the answer is never a 400. *)
Lemma batch_400_only_when_empty (req : Request) (w : World) :
  model_loaded w = true ->
  files_images req <> [] -> status (fst (batch_detect E req w)) <> 400.
Proof.
  intros Hm Hne. rewrite (batch_detect_run _ _ Hm Hne). cbv zeta.
  destruct (batch_loop E _ 0 _ [] _) as [[msg | entries] w'];
    cbn; discriminate.
Qed.

(** C7. With the model loaded, a non-empty submission and a detector
    that returns, the batch handler answers 200 with the fresh batch
    identifier, [processed_images] equal to the number of entries with
    a non-empty filename, and one result per such entry in submission
    order, each reporting its file under the identifier built from the
    entry's position; the detector is called once per such entry, in
    order, always with threshold 0.25, whatever the form carries. *)
Theorem batch_processes_in_order (req : Request) (w : World) :
  model_loaded w = true ->
  files_images req <> [] ->
  detector_reliable E ->
  let files := files_images req in
  let batch_id := uuid4 E (uuid_count w) in
  let out := batch_detect E req w in
  exists r,
    fst out = {| status := 200; body := BatchBody r |}
    /\ br_success r = true
    /\ br_batch_id r = batch_id
    /\ br_processed_images r = length (named files)
    /\ map be_filename (br_results r) = map filename (named files)
    /\ Forall2 (entry_reports E batch_id) (br_results r) (named_from 0 files)
    /\ predict_log (snd out)
       = (predict_log w
          ++ map (fun p => batch_call batch_id (fst p)) (named_from 0 files))%list
    /\ Forall (fun a => conf_threshold a = (1 # 4)%Q)
         (map (fun p => batch_call batch_id (fst p)) (named_from 0 files)).
Proof.
  intros Hm Hne Hrel. cbv zeta.
  rewrite (batch_detect_run _ _ Hm Hne). cbv zeta.
  destruct (batch_loop_reliable (uuid4 E (uuid_count w)) Hrel
              (files_images req) 0 [] (bump_uuid w))
    as (entries & w' & Hrun & Hent & Hlog & _).
  rewrite Hrun. cbn [app fst snd bump_clock predict_log].
  cbn [bump_uuid predict_log] in Hlog.
  eexists. split; [reflexivity |].
  cbn [br_success br_batch_id br_processed_images br_results].
  assert (Hnames :
    map be_filename entries = map filename (named (files_images req))).
  { rewrite <- (named_from_files (files_images req) 0), map_map.
    clear -Hent. induction Hent as [| e p es ps (Hf & _) _ IH]; [reflexivity |].
    cbn. rewrite Hf, IH. reflexivity. }
  repeat split.
  - rewrite <- (length_map filename (named _)), <- Hnames, length_map.
    reflexivity.
  - exact Hnames.
  - exact Hent.
  - exact Hlog.
  - apply Forall_forall. intros a Ha.
    apply list_elem_of_In, in_map_iff in Ha.
    destruct Ha as (p & <- & _). reflexivity.
Qed.

(** C10. When every submitted entry has an empty filename: an empty
    list is answered 400 "No image files provided"; a non-empty one is
    answered 200 with success true, [processed_images] 0 and no
    results, and neither the file system nor the detector is touched. *)
Theorem batch_all_empty_filenames (req : Request) (w : World) :
  model_loaded w = true ->
  Forall (fun file => filename file = "") (files_images req) ->
  let out := batch_detect E req w in
  (files_images req = [] ->
   out = (error_response 400 "No image files provided", w))
  /\ (files_images req <> [] ->
      fst out
      = {| status := 200;
           body := BatchBody
             {| br_success := true;
                br_batch_id := uuid4 E (uuid_count w);
                br_processed_images := 0;
                br_results := [];
                br_timestamp := now E (clock_count w) |} |}
      /\ fs (snd out) = fs w
      /\ predict_log (snd out) = predict_log w).
Proof.
  intros Hm Hall. cbv zeta. split.
  - intros Hnil.
    unfold batch_detect, run_handler, batch_detect_body, bind, gets.
    rewrite Hm, Hnil. reflexivity.
  - intros Hne. rewrite (batch_detect_run _ _ Hm Hne). cbv zeta.
    rewrite (batch_loop_all_skipped _ _ Hall). cbn. repeat split.
Qed.

End BatchFacts.

Lemma toy_detector_reliable : detector_reliable toy_env.
Proof. intros a f. unfold toy_env, toy_predict. cbn. eauto. Qed.

(** Two images around an entry with an empty filename. *)
Lemma batch_processes_in_order_witness :
  let out :=
    batch_detect toy_env
      (batch_request [image "a.jpg" "AZ"; image "" ""; image "b.png" "zzzzzzz"]
                     (Some "0.9"))
      fresh_world in
  exists r,
    fst out = {| status := 200; body := BatchBody r |}
    /\ br_processed_images r = 2
    /\ map be_filename (br_results r) = ["a.jpg"; "b.png"]
    /\ map conf_threshold (predict_log (snd out)) = [(1 # 4)%Q; (1 # 4)%Q].
Proof.
  cbv zeta.
  destruct (batch_processes_in_order toy_env
    (batch_request [image "a.jpg" "AZ"; image "" ""; image "b.png" "zzzzzzz"]
                   (Some "0.9"))
    fresh_world eq_refl ltac:(discriminate) toy_detector_reliable)
    as (r & Hresp & _ & _ & Hn & Hnames & _ & Hlog & _).
  exists r. split; [exact Hresp |]. split; [exact Hn |].
  split; [exact Hnames |]. rewrite Hlog. reflexivity.
Defined.

Lemma batch_all_empty_filenames_witness :
  let out :=
    batch_detect toy_env (batch_request [image "" ""; image "" "x"] None)
      fresh_world in
  status (fst out) = 200
  /\ fs (snd out) = fs fresh_world
  /\ predict_log (snd out) = [].
Proof.
  cbv zeta.
  destruct (batch_all_empty_filenames toy_env
    (batch_request [image "" ""; image "" "x"] None) fresh_world eq_refl
    ltac:(repeat constructor)) as [_ H].
  destruct (H ltac:(discriminate)) as (Hresp & Hfs & Hlog).
  rewrite Hresp. repeat split; assumption.
Defined.

(** * Further properties of the code *)

(** ** Rounding to hundredths *)

Section RoundingMore.
Local Open Scope Q_scope.

Lemma round_half_even_comp (x y : Q) :
  x == y -> round_half_even x = round_half_even y.
Proof.
  intros Hxy. unfold round_half_even.
  rewrite (Qfloor_comp _ _ Hxy).
  assert (Hc : (x - inject_Z (Qfloor y) ?= 1 # 2)
               = (y - inject_Z (Qfloor y) ?= 1 # 2))
    by (apply Qcompare_comp; [rewrite Hxy |]; reflexivity).
  rewrite Hc. reflexivity.
Qed.


Lemma round_half_even_mono (x y : Q) :
  x <= y -> (round_half_even x <= round_half_even y)%Z.
Proof.
  intros Hxy.
  destruct (Z_le_gt_dec (round_half_even x) (round_half_even y))
    as [Hle | Hgt]; [exact Hle | exfalso].
  destruct (round_half_even_bounds x) as [Hxl _].
  destruct (round_half_even_bounds y) as [_ Hyh].
  assert (Hz : inject_Z (round_half_even y + 1) <= inject_Z (round_half_even x))
    by (rewrite <- Zle_Qle; lia).
  rewrite inject_Z_plus in Hz. change (inject_Z 1) with 1 in Hz.
  assert (Heq : x == y) by lra.
  pose proof (round_half_even_comp _ _ Heq). lia.
Qed.


Lemma round2_mono (x y : Q) : x <= y -> round2 x <= round2 y.
Proof.
  intros Hxy. rewrite !round2_value.
  assert (Hs : x * 100 <= y * 100) by lra.
  pose proof (round_half_even_mono _ _ Hs) as Hz.
  rewrite Zle_Qle in Hz. revert Hz.
  generalize (inject_Z (round_half_even (x * 100)))
             (inject_Z (round_half_even (y * 100))).
  intros a b Hab. assert (E : / 100 == 1 # 100) by reflexivity.
  unfold Qdiv. rewrite E. lra.
Qed.


Lemma Qsum_between (lo hi : Q) (l : list Q) :
  Forall (fun c => lo <= c <= hi) l ->
  lo * inject_Z (Z.of_nat (length l)) <= Qsum l
  /\ Qsum l <= hi * inject_Z (Z.of_nat (length l)).
Proof.
  induction 1 as [| c l [Hlo Hhi] _ [IHlo IHhi]].
  - unfold Qsum. cbn [length foldr].
    change (inject_Z (Z.of_nat 0)) with 0. split; lra.
  - unfold Qsum. cbn [length foldr]. fold (Qsum l).
    rewrite Nat2Z.inj_succ. unfold Z.succ. rewrite inject_Z_plus.
    change (inject_Z 1) with 1.
    revert IHlo IHhi. generalize (inject_Z (Z.of_nat (length l))) (Qsum l).
    intros n t IHlo IHhi. split; lra.
Qed.

Lemma np_mean_between (lo hi : Q) (l : list Q) :
  l <> [] ->
  Forall (fun c => lo <= c <= hi) l ->
  lo <= np_mean l <= hi.
Proof.
  intros Hne Hall. destruct (Qsum_between lo hi l Hall) as [Hlo Hhi].
  assert (Hpos : 0 < inject_Z (Z.of_nat (length l))).
  { change 0 with (inject_Z 0). rewrite <- Zlt_Qlt.
    destruct l; [congruence | cbn [length]; lia]. }
  unfold np_mean. split.
  - apply Qle_shift_div_l; assumption.
  - apply Qle_shift_div_r; assumption.
Qed.

End RoundingMore.

(** ** More on the result normaliser *)

Section NormalizerMore.

Lemma report_cases (results : list Result) :
  (detected_boxes results = None
   /\ process_detection_results results = no_plastic_report)
  \/ (exists bxs, detected_boxes results = Some bxs
      /\ boxes_len bxs <> 0
      /\ process_detection_results results
         = {| detections := boxes_len bxs;
              confidence := round2 (mean_or_zero (numpy_or_empty (conf bxs)));
              plastic_types :=
                list_set (replicate (length (numpy_or_empty (cls bxs)))
                                    "plastic");
              bounding_boxes :=
                imap (make_box (numpy_or_empty (conf bxs))
                        (replicate (length (numpy_or_empty (cls bxs)))
                                   "plastic"))
                     (numpy_or_empty (xyxy bxs));
              environmental_impact :=
                {| severity := severity_of (boxes_len bxs);
                   recommendation :=
                     recommendations (severity_of (boxes_len bxs)) |} |}).
Proof.
  destruct (detected_boxes results) as [bxs |] eqn:Hd.
  - right. exists bxs. split; [reflexivity |].
    split; [exact (detected_boxes_nonempty _ _ Hd) |].
    rewrite (process_detected _ _ Hd). cbv zeta. rewrite mean_guard.
    reflexivity.
  - left. split; [reflexivity | exact (process_no_detections _ Hd)].
Qed.


(** If every detection confidence lies in [0, 1], so does the
    confidence of the report, for every detector output. *)
Theorem confidence_in_unit_interval (results : list Result) :
  (forall bxs, detected_boxes results = Some bxs ->
     Forall (fun c => 0 <= c <= 1)%Q (numpy_or_empty (conf bxs))) ->
  (0 <= confidence (process_detection_results results) <= 1)%Q.
Proof.
  intros Hall.
  destruct (report_cases results) as [[_ ->] | (bxs & Hd & _ & ->)].
  - cbn. split; discriminate.
  - cbn [confidence]. specialize (Hall bxs Hd).
    change 0%Q with (round2 0). change 1%Q with (round2 1).
    destruct (numpy_or_empty (conf bxs)) as [| c cs] eqn:Hcs.
    + cbn. split; discriminate.
    + cbn [mean_or_zero].
      destruct (np_mean_between 0 1 (c :: cs) ltac:(discriminate) Hall).
      split; apply round2_mono; assumption.
Qed.

Lemma confidence_in_unit_interval_witness :
  (0 <= confidence (process_detection_results
          (detections_with [(3 # 10)%Q; (1 # 2)%Q; (9 # 10)%Q])) <= 1)%Q.
Proof.
  apply (confidence_in_unit_interval
           (detections_with [(3 # 10)%Q; (1 # 2)%Q; (9 # 10)%Q])).
  intros bxs [= <-]. repeat constructor; cbn; discriminate.
Defined.

Lemma severity_of_report (results : list Result) :
  severity (environmental_impact (process_detection_results results))
  = severity_of (detections (process_detection_results results)).
Proof.
  destruct (report_cases results) as [[_ ->] | (bxs & _ & _ & ->)];
    reflexivity.
Qed.

(** A report with at least as many detections never has a lower
    severity. *)
Theorem severity_monotone (results1 results2 : list Result) :
  let rep1 := process_detection_results results1 in
  let rep2 := process_detection_results results2 in
  detections rep1 <= detections rep2 ->
  severity_rank (severity (environmental_impact rep1))
  <= severity_rank (severity (environmental_impact rep2)).
Proof.
  cbv zeta. rewrite !severity_of_report.
  generalize (detections (process_detection_results results1))
             (detections (process_detection_results results2)).
  intros c1 c2 Hle. unfold severity_of.
  destruct (Nat.ltb_spec 5 c1), (Nat.ltb_spec 1 c1),
           (Nat.ltb_spec 5 c2), (Nat.ltb_spec 1 c2); cbn; lia.
Qed.

Lemma severity_monotone_witness :
  severity_rank (severity (environmental_impact
     (process_detection_results (detections_with (replicate 2 (1 # 2)%Q)))))
  <= severity_rank (severity (environmental_impact
     (process_detection_results (detections_with (replicate 7 (1 # 2)%Q))))).
Proof.
  apply (severity_monotone (detections_with (replicate 2 (1 # 2)%Q))
                           (detections_with (replicate 7 (1 # 2)%Q))).
  cbn. lia.
Defined.

Lemma list_set_replicate (n : nat) (x : string) :
  list_set (replicate (S n) x) = [x].
Proof.
  unfold list_set. induction n as [| n IH].
  - reflexivity.
  - change (replicate (S (S n)) x) with (x :: replicate (S n) x).
    cbn [remove_dups].
    destruct (decide_rel elem_of x (replicate (S n) x)) as [_ | Hn];
      [exact IH |].
    exfalso. apply Hn. cbn. constructor.
Qed.

(** The plastic types of a report are the single label "plastic" when
    the detector reported detections with a non-empty class array, and
    empty otherwise, whatever the class indices are. *)
Theorem plastic_types_single_label (results : list Result) :
  plastic_types (process_detection_results results)
  = match detected_boxes results with
    | Some bxs =>
        match numpy_or_empty (cls bxs) with
        | [] => []
        | _ :: _ => ["plastic"]
        end
    | None => []
    end.
Proof.
  destruct (report_cases results) as [[-> ->] | (bxs & -> & _ & ->)];
    [reflexivity |].
  cbn [plastic_types].
  destruct (numpy_or_empty (cls bxs)) as [| c cs]; [reflexivity |].
  apply list_set_replicate.
Qed.

(** Bounding box [i] of a report carries the corners of row [i] of the
    [xyxy] array, the confidence at index [i] (0.0 past the end of the
    confidences) and the class "plastic"; there is no box past the last
    row. *)
Theorem bounding_boxes_follow_rows (results : list Result) (bxs : Boxes)
    (i : nat) :
  detected_boxes results = Some bxs ->
  bounding_boxes (process_detection_results results) !! i
  = (fun row =>
       {| bb_x1 := r0 row; bb_y1 := r1 row; bb_x2 := r2 row; bb_y2 := r3 row;
          bb_confidence := default 0%Q (numpy_or_empty (conf bxs) !! i);
          bb_class := "plastic" |})
    <$> numpy_or_empty (xyxy bxs) !! i.
Proof.
  intros Hd. rewrite (process_detected _ _ Hd). cbv zeta.
  cbn [bounding_boxes]. rewrite list_lookup_imap.
  destruct (numpy_or_empty (xyxy bxs) !! i) as [row |]; [| reflexivity].
  cbn. unfold make_box.
  assert (Hclass :
    match replicate (length (numpy_or_empty (cls bxs))) "plastic" !! i with
    | Some c => c
    | None => "plastic"
    end = "plastic").
  { destruct (replicate _ "plastic" !! i) as [c |] eqn:Hc; [| reflexivity].
    apply lookup_replicate in Hc. destruct Hc as [-> _]. reflexivity. }
  rewrite Hclass.
  destruct (numpy_or_empty (conf bxs) !! i); reflexivity.
Qed.

Lemma bounding_boxes_follow_rows_witness :
  map bb_confidence
    (bounding_boxes
       (process_detection_results [ {| boxes := Some ragged_boxes |} ]))
  = [(9 # 10)%Q; 0%Q]
  /\ bounding_boxes
       (process_detection_results [ {| boxes := Some ragged_boxes |} ]) !! 2
     = None.
Proof.
  split.
  - apply list_eq. intros [| [| i]].
    + rewrite list_lookup_fmap,
        (bounding_boxes_follow_rows [ {| boxes := Some ragged_boxes |} ]
           ragged_boxes 0 eq_refl). reflexivity.
    + rewrite list_lookup_fmap,
        (bounding_boxes_follow_rows [ {| boxes := Some ragged_boxes |} ]
           ragged_boxes 1 eq_refl). reflexivity.
    + rewrite list_lookup_fmap,
        (bounding_boxes_follow_rows [ {| boxes := Some ragged_boxes |} ]
           ragged_boxes (S (S i)) eq_refl). reflexivity.
  - rewrite (bounding_boxes_follow_rows [ {| boxes := Some ragged_boxes |} ]
               ragged_boxes 2 eq_refl). reflexivity.
Defined.

(** The report depends on the class array only through its length, and
    on the results list only through its first element. *)
Theorem report_ignores_class_values (result : Result)
    (rest rest' : list Result) (bxs : Boxes) (classes : option (list Q)) :
  boxes result = Some bxs ->
  length (numpy_or_empty classes) = length (numpy_or_empty (cls bxs)) ->
  process_detection_results
    ({| boxes := Some (with_classes bxs classes) |} :: rest')
  = process_detection_results (result :: rest).
Proof.
  intros Hb Hlen. unfold process_detection_results.
  rewrite Hb. cbn [boxes with_classes boxes_len conf cls xyxy].
  rewrite Hlen. reflexivity.
Qed.

Lemma report_ignores_class_values_witness :
  process_detection_results
    [ {| boxes := Some (with_classes
           (unit_boxes [(3 # 10)%Q; (9 # 10)%Q]) (Some [(7 # 1)%Q; (42 # 1)%Q]))
      |}; {| boxes := None |} ]
  = process_detection_results (detections_with [(3 # 10)%Q; (9 # 10)%Q]).
Proof.
  apply (report_ignores_class_values
           {| boxes := Some (unit_boxes [(3 # 10)%Q; (9 # 10)%Q]) |}
           [] [ {| boxes := None |} ]
           (unit_boxes [(3 # 10)%Q; (9 # 10)%Q])
           (Some [(7 # 1)%Q; (42 # 1)%Q]) eq_refl eq_refl).
Defined.

End NormalizerMore.

(** ** More on the single-image handler *)

Section SingleMore.
Variable E : Env.

(** The handler past its three guards, by the outcome of [float] and
    of the detector. *)
Lemma detect_plastic_run (req : Request) (w : World) (file : FileStorage) :
  model_loaded w = true ->
  files_image req = Some file ->
  filename file <> "" ->
  detect_plastic E req w
  = match parsed_threshold E req with
    | Raise msg =>
        (error_response 500 ("Detection failed: " ++ msg),
         world_after_staging E w file)
    | Ok q =>
        match predict E (single_call E w q) (staged_fs E w file) with
        | (Raise msg, f') =>
            (error_response 500 ("Detection failed: " ++ msg),
             world_after_predict E w q f')
        | (Ok rs, f') =>
            (success_response E w file rs f', world_after_cleanup E w q f')
        end
    end.
Proof.
  intros Hm Hfile Hname.
  unfold detect_plastic, run_handler, detect_plastic_body, bind, gets.
  rewrite Hm, Hfile. cbn [negb]. rewrite decide_False by exact Hname.
  unfold parsed_threshold, confidence_of_form, model_predict, fresh_uuid,
    save_upload, isoformat_now, cleanup_upload, modify, ret.
  unfold world_after_staging, world_after_predict, world_after_cleanup,
    success_response, annotated_image_of, single_call, staged_fs, staged_name.
  cbn [fs set_fs uploads result_dirs model_loaded uuid_count clock_count
       predict_log].
  destruct (form_confidence req) as [s |].
  - destruct (py_float E s) as [msg | q]; [reflexivity |].
    destruct (predict E _ _) as [[msg | rs] f']; [reflexivity |].
    unfold set_fs.
    cbn [fs uploads result_dirs model_loaded uuid_count clock_count
         predict_log].
    f_equal.
    + destruct (result_dirs f' !! uuid4 E (uuid_count w)) as [listing |];
        [| reflexivity].
      destruct (find_annotated listing) as [[n b] |]; reflexivity.
    + destruct (uploads f' !! (uuid4 E (uuid_count w) ++ ".jpg")) eqn:Hl;
        [reflexivity |].
      cbn [fs uploads result_dirs model_loaded uuid_count clock_count
           predict_log].
      rewrite (delete_id _ _ Hl). destruct f'. reflexivity.
  - destruct (predict E _ _) as [[msg | rs] f']; [reflexivity |].
    unfold set_fs.
    cbn [fs uploads result_dirs model_loaded uuid_count clock_count
         predict_log].
    f_equal.
    + destruct (result_dirs f' !! uuid4 E (uuid_count w)) as [listing |];
        [| reflexivity].
      destruct (find_annotated listing) as [[n b] |]; reflexivity.
    + destruct (uploads f' !! (uuid4 E (uuid_count w) ++ ".jpg")) eqn:Hl;
        [reflexivity |].
      cbn [fs uploads result_dirs model_loaded uuid_count clock_count
           predict_log].
      rewrite (delete_id _ _ Hl). destruct f'. reflexivity.
Qed.

(** The four ways through the handler. *)
Lemma detect_plastic_cases (req : Request) (w : World) :
  (model_loaded w = false
   /\ detect_plastic E req w = (error_response 500 "Model not loaded", w))
  \/ (model_loaded w = true /\ files_image req = None
      /\ detect_plastic E req w
         = (error_response 400 "No image file provided", w))
  \/ (exists file, model_loaded w = true /\ files_image req = Some file
      /\ filename file = ""
      /\ detect_plastic E req w
         = (error_response 400 "No image file selected", w))
  \/ (exists file, model_loaded w = true /\ files_image req = Some file
      /\ filename file <> "").
Proof.
  destruct (model_loaded w) eqn:Hm.
  - right. destruct (files_image req) as [file |] eqn:Hfile.
    + right. destruct (decide (filename file = "")) as [Hname | Hname].
      * left. exists file. repeat split; try assumption.
        unfold detect_plastic, run_handler, detect_plastic_body, bind, gets.
        rewrite Hm, Hfile. cbn [negb]. rewrite decide_True by exact Hname.
        reflexivity.
      * right. exists file. repeat split; assumption.
    + left. repeat split.
      unfold detect_plastic, run_handler, detect_plastic_body, bind, gets.
      rewrite Hm, Hfile. reflexivity.
  - left. split; [reflexivity |].
    unfold detect_plastic, run_handler, detect_plastic_body, bind, gets.
    rewrite Hm. reflexivity.
Qed.

(** A valid request whose threshold parses and whose detector call
    returns is answered 200 with the fresh identifier, the original
    filename, the normalised detector output and the first image file
    of the run's results directory; the detector is called once, on the
    staged path and with the requested threshold (0.25 when the form
    has none), and the staged upload is removed. *)
Theorem detect_success (req : Request) (w : World) (file : FileStorage)
    (q : Q) (rs : list Result) (f' : FS) :
  model_loaded w = true ->
  files_image req = Some file ->
  filename file <> "" ->
  parsed_threshold E req = Ok q ->
  predict E (single_call E w q) (staged_fs E w file) = (Ok rs, f') ->
  detect_plastic E req w
  = (success_response E w file rs f', world_after_cleanup E w q f').
Proof.
  intros Hm Hfile Hname Hq Hp.
  rewrite (detect_plastic_run _ _ _ Hm Hfile Hname), Hq, Hp. reflexivity.
Qed.



(** With a detector that leaves the upload directory alone, the handler
    changes it at most at the name it stages under: every other upload
    is as before, whatever the outcome. *)
Theorem detect_frame (req : Request) (w : World) (k : string) :
  detector_preserves_uploads E ->
  k <> staged_name E w ->
  uploads (fs (snd (detect_plastic E req w))) !! k = uploads (fs w) !! k.
Proof.
  intros Hkeep Hk.
  destruct (detect_plastic_cases req w)
    as [[Hm ->] | [(Hm & Hfile & ->) | [(file & Hm & Hfile & Hname & ->)
                                       | (file & Hm & Hfile & Hname)]]];
    try reflexivity.
  rewrite (detect_plastic_run _ _ _ Hm Hfile Hname).
  destruct (parsed_threshold E req) as [msg | q].
  - cbn. apply lookup_insert_ne. congruence.
  - pose proof (Hkeep (single_call E w q) (staged_fs E w file)) as Hu.
    destruct (predict E _ _) as [[msg | rs] f']; cbn in Hu |- *.
    + rewrite Hu. apply lookup_insert_ne. congruence.
    + rewrite lookup_delete_ne by congruence. rewrite Hu.
      apply lookup_insert_ne. congruence.
Qed.

End SingleMore.

Lemma toy_detector_preserves_uploads : detector_preserves_uploads toy_env.
Proof. intros a f. reflexivity. Qed.

Lemma broken_detector_preserves_uploads : detector_preserves_uploads broken_env.
Proof. intros a f. reflexivity. Qed.

Lemma detect_success_witness :
  let out :=
    detect_plastic toy_env
      (single_request (Some (image "river.jpg" "AZ!x")) (Some "0.5"))
      fresh_world in
  status (fst out) = 200
  /\ map conf_threshold (predict_log (snd out)) = [(1 # 2)%Q]
  /\ uploads (fs (snd out)) !! "00000000-0000-4000-8000-0.jpg" = None.
Proof.
  cbv zeta.
  rewrite (detect_success toy_env
    (single_request (Some (image "river.jpg" "AZ!x")) (Some "0.5"))
    fresh_world (image "river.jpg" "AZ!x") (1 # 2)
    (predict_results toy_env (single_call toy_env fresh_world (1 # 2))
       (staged_fs toy_env fresh_world (image "river.jpg" "AZ!x")))
    (snd (predict toy_env (single_call toy_env fresh_world (1 # 2))
       (staged_fs toy_env fresh_world (image "river.jpg" "AZ!x"))))
    eq_refl eq_refl ltac:(discriminate) eq_refl eq_refl).
  vm_compute. repeat split.
Defined.


Lemma detect_frame_witness :
  let w :=
    {| model_loaded := true;
       fs := {| uploads := {[ "earlier.jpg" := "kept" ]}; result_dirs := ∅ |};
       uuid_count := 0; clock_count := 0; predict_log := [] |} in
  uploads (fs (snd (detect_plastic toy_env
     (single_request (Some (image "river.jpg" "AZ!x")) None) w)))
    !! "earlier.jpg" = Some "kept".
Proof.
  cbv zeta.
  rewrite (detect_frame toy_env
    (single_request (Some (image "river.jpg" "AZ!x")) None) _ "earlier.jpg"
    toy_detector_preserves_uploads ltac:(discriminate)).
  reflexivity.
Defined.

Lemma staged_file_removed_on_success_witness :
  uploads (fs (snd (detect_plastic toy_env
     (single_request (Some (image "river.jpg" "AZ!x")) (Some "0.5"))
     fresh_world)))
    !! "00000000-0000-4000-8000-0.jpg" = None.
Proof.
  apply (staged_file_removed_on_success toy_env
    (single_request (Some (image "river.jpg" "AZ!x")) (Some "0.5"))
    fresh_world).
  vm_compute. reflexivity.
Defined.

(** ** More on the batch handler *)

Section BatchMore.
Variable E : Env.

(** Whenever the loop completes, its new entries report the named
    files, in order. *)
Lemma batch_loop_ok (batch_id : string) (files : list FileStorage) :
  forall i acc w out w',
  batch_loop E batch_id i files acc w = (Ok out, w') ->
  exists entries,
    out = (acc ++ entries)%list
    /\ Forall2 (entry_reports E batch_id) entries (named_from i files).
Proof.
  induction files as [| file rest IH]; intros i acc w out w' Hrun.
  - cbn in Hrun. injection Hrun as <- <-. exists [].
    rewrite app_nil_r. split; [reflexivity | constructor].
  - cbn [batch_loop] in Hrun.
    destruct (decide (filename file = "")) as [Hname | Hname].
    + rewrite (named_from_cons_skipped _ _ _ Hname). exact (IH _ _ _ _ _ Hrun).
    + rewrite (named_from_cons_kept _ _ _ Hname).
      unfold bind at 1 in Hrun. unfold save_upload, modify in Hrun.
      unfold bind at 1 in Hrun. unfold model_predict in Hrun.
      cbn [fs set_fs uploads result_dirs model_loaded uuid_count clock_count
           predict_log] in Hrun.
      match type of Hrun with
      | context [predict E ?a ?f] =>
          assert (Hres : forall rs f', predict E a f = (Ok rs, f') ->
                    predict_results E a f = rs)
            by (intros rs f' Hp; unfold predict_results; rewrite Hp;
                reflexivity);
          assert (Hst : uploads f !! ((batch_id ++ "_" ++ pretty i) ++ ".jpg")
                        = Some (content file)) by apply lookup_insert_eq;
          destruct (predict E a f) as [[msg | rs] f'] eqn:Hp;
            [discriminate |]
      end.
      specialize (Hres rs f' eq_refl).
      unfold bind at 1 in Hrun. unfold cleanup_upload, modify in Hrun.
      apply IH in Hrun. destruct Hrun as (entries & -> & Hent).
      eexists (_ :: entries). rewrite <- app_assoc. split; [reflexivity |].
      constructor; [| exact Hent].
      split; [reflexivity |]. split; [reflexivity |].
      eexists. split; [exact Hst |]. cbn [be_results fst snd].
      rewrite <- Hres. reflexivity.
Qed.

Lemma named_from_indices (files : list FileStorage) :
  forall i,
  NoDup (map fst (named_from i files))
  /\ Forall (fun p => i <= fst p) (named_from i files).
Proof.
  induction files as [| file rest IH]; intros i.
  - split; constructor.
  - destruct (IH (S i)) as [Hnd Hge].
    destruct (decide (filename file = "")) as [Hname | Hname].
    + rewrite (named_from_cons_skipped _ _ _ Hname). split; [exact Hnd |].
      eapply Forall_impl; [exact Hge |]. cbn. intros p Hp. lia.
    + rewrite (named_from_cons_kept _ _ _ Hname). split.
      * cbn [map fst]. apply NoDup_cons. split; [| exact Hnd].
        intros Hin. apply list_elem_of_In, in_map_iff in Hin.
        destruct Hin as (p & Hp & Hin).
        apply list_elem_of_In in Hin.
        rewrite Forall_forall in Hge. specialize (Hge p Hin). lia.
      * constructor; [cbn; lia |].
        eapply Forall_impl; [exact Hge |]. cbn. intros p Hp. lia.
Qed.

Lemma batch_file_id_inj (batch_id : string) (i j : nat) :
  batch_file_id batch_id i = batch_file_id batch_id j -> i = j.
Proof.
  unfold batch_file_id. intros H.
  apply (inj (String.app batch_id)) in H.
  apply (inj (String.app "_")) in H.
  apply (inj pretty) in H. exact H.
Qed.

Lemma entry_ids (batch_id : string) (entries : list BatchEntry)
    (ps : list (nat * FileStorage)) :
  Forall2 (entry_reports E batch_id) entries ps ->
  map be_file_id entries = map (batch_file_id batch_id) (map fst ps)
  /\ length entries = length ps.
Proof.
  induction 1 as [| e p es ps' (_ & Hid & _) _ [IH IHlen]];
    [split; reflexivity |].
  cbn. rewrite Hid, IH, IHlen. split; reflexivity.
Qed.

(** Every answer of the batch handler is 200 with a batch body, or 400
    or 500 with an error body and hence no partial results. In a 200
    body the success flag is set, [processed_images] is the number of
    results, which is the number of submitted entries with a non-empty
    filename, and the per-image identifiers are pairwise distinct. The
    answer is 400 exactly when the model is loaded and no file was
    submitted. *)
Theorem batch_response_shape (req : Request) (w : World) :
  let out := batch_detect E req w in
  ((status (fst out) = 200
    /\ exists r,
         body (fst out) = BatchBody r
         /\ br_success r = true
         /\ br_processed_images r = length (br_results r)
         /\ length (br_results r) = length (named (files_images req))
         /\ NoDup (map be_file_id (br_results r)))
   \/ ((status (fst out) = 400 \/ status (fst out) = 500)
       /\ exists msg, body (fst out) = ErrorBody msg))
  /\ (status (fst out) = 400
      <-> model_loaded w = true /\ files_images req = []).
Proof.
  cbv zeta. destruct (model_loaded w) eqn:Hm.
  - destruct (files_images req) as [| file rest] eqn:Hfiles.
    + unfold batch_detect, run_handler, batch_detect_body, bind, gets.
      rewrite Hm, Hfiles. cbn. split; [right; split; eauto |].
      split; intros; [split |]; reflexivity.
    + assert (Hne : files_images req <> []) by congruence.
      rewrite (batch_detect_run E _ _ Hm Hne). cbv zeta. rewrite Hfiles.
      destruct (batch_loop E _ 0 (file :: rest) [] _)
        as [[msg | entries] w'] eqn:Hrun; cbn [fst snd status body error_response].
      * split; [right; split; eauto |].
        split; [discriminate | intros [_ [=]]].
      * split; [| split; [discriminate | intros [_ [=]]]].
        left. split; [reflexivity |]. eexists. split; [reflexivity |].
        cbn [br_success br_processed_images br_results].
        apply batch_loop_ok in Hrun.
        destruct Hrun as (es & -> & Hent). cbn [app].
        destruct (entry_ids _ _ _ Hent) as [Hids Hlen].
        repeat split.
        -- rewrite Hlen, <- (named_from_files (file :: rest) 0), length_map.
           reflexivity.
        -- rewrite Hids.
           apply (NoDup_fmap_2_strong (batch_file_id (uuid4 E (uuid_count w)))).
           ++ intros i j _ _ Hij. exact (batch_file_id_inj _ _ _ Hij).
           ++ apply named_from_indices.
  - unfold batch_detect, run_handler, batch_detect_body, bind, gets.
    rewrite Hm. cbn. split; [right; split; eauto |].
    split; [discriminate | intros [[=] _]].
Qed.

(** The loop stops at the first detector call that raises: nothing
    after it is staged or detected, and the staged copy is not
    removed. *)
Lemma batch_loop_failing (batch_id msg : string) :
  detector_failing E msg ->
  forall files i acc w,
  match named_from i files with
  | [] => batch_loop E batch_id i files acc w = (Ok acc, w)
  | (j, file) :: _ =>
      let staged :=
        {| uploads :=
             <[batch_file_id batch_id j ++ ".jpg" := content file]>
               (uploads (fs w));
           result_dirs := result_dirs (fs w) |} in
      let out := batch_loop E batch_id i files acc w in
      fst out = Raise msg
      /\ predict_log (snd out) = (predict_log w ++ [batch_call batch_id j])%list
      /\ fs (snd out) = snd (predict E (batch_call batch_id j) staged)
  end.
Proof.
  intros Hfail. induction files as [| file rest IH]; intros i acc w.
  - reflexivity.
  - destruct (decide (filename file = "")) as [Hname | Hname].
    + rewrite (named_from_cons_skipped _ _ _ Hname).
      cbn [batch_loop]. rewrite decide_True by exact Hname. apply IH.
    + rewrite (named_from_cons_kept _ _ _ Hname). cbv zeta.
      set (staged := {| uploads :=
                          <[batch_file_id batch_id i ++ ".jpg" := content file]>
                            (uploads (fs w));
                        result_dirs := result_dirs (fs w) |}).
      assert (Hrun :
        batch_loop E batch_id i (file :: rest) acc w
        = (Raise msg,
           {| model_loaded := model_loaded w;
              fs := snd (predict E (batch_call batch_id i) staged);
              uuid_count := uuid_count w; clock_count := clock_count w;
              predict_log := predict_log w ++ [batch_call batch_id i] |})).
      { cbn [batch_loop]. rewrite decide_False by exact Hname.
        unfold bind, save_upload, modify, model_predict.
        cbn [fs set_fs uploads result_dirs model_loaded uuid_count
             clock_count predict_log].
        change {| source := path_join UPLOAD_FOLDER
                              ((batch_id ++ "_" ++ pretty i) ++ ".jpg");
                  conf_threshold := (1 # 4)%Q;
                  project := RESULTS_FOLDER;
                  name := batch_id ++ "_" ++ pretty i |}
          with (batch_call batch_id i).
        change {| uploads :=
                    <[(batch_id ++ "_" ++ pretty i) ++ ".jpg" := content file]>
                      (uploads (fs w));
                  result_dirs := result_dirs (fs w) |} with staged.
        pose proof (Hfail (batch_call batch_id i) staged) as Hp.
        destruct (predict E (batch_call batch_id i) staged) as [r f'].
        cbn [fst] in Hp. subst r. reflexivity. }
      rewrite Hrun. repeat split.
Qed.

(** When the detector raises on the first file with a non-empty
    filename, the whole batch is answered 500 "Batch processing
    failed: " with the exception text; that one detector call is the
    only one made, and with a detector that leaves the upload directory
    alone the staged copy of that file stays behind. *)
Theorem batch_detector_failure (req : Request) (w : World) (msg : string)
    (j : nat) (file : FileStorage) (later : list (nat * FileStorage)) :
  model_loaded w = true ->
  detector_failing E msg ->
  named_from 0 (files_images req) = (j, file) :: later ->
  let batch_id := uuid4 E (uuid_count w) in
  let out := batch_detect E req w in
  fst out = error_response 500 ("Batch processing failed: " ++ msg)
  /\ predict_log (snd out) = (predict_log w ++ [batch_call batch_id j])%list
  /\ (detector_preserves_uploads E ->
      uploads (fs (snd out)) !! (batch_file_id batch_id j ++ ".jpg")
      = Some (content file)).
Proof.
  intros Hm Hfail Hnamed. cbv zeta.
  assert (Hne : files_images req <> []).
  { intros Hnil. rewrite Hnil in Hnamed. discriminate. }
  rewrite (batch_detect_run E _ _ Hm Hne). cbv zeta.
  pose proof (batch_loop_failing (uuid4 E (uuid_count w)) msg Hfail
                (files_images req) 0 [] (bump_uuid w)) as Hloop.
  rewrite Hnamed in Hloop. cbv zeta in Hloop.
  destruct (batch_loop E _ 0 _ [] _) as [[m | entries] w'];
    destruct Hloop as (Hr & Hlog & Hfs); [| discriminate].
  cbn [fst] in Hr. injection Hr as ->. cbn [fst snd] in *.
  repeat split; [exact Hlog |].
  intros Hkeep. rewrite Hfs, Hkeep. apply lookup_insert_eq.
Qed.

(** With a detector that leaves the upload directory alone, a loop that
    completes leaves no staged copy behind and no other upload
    changed. *)
Lemma batch_loop_uploads (batch_id : string) :
  detector_preserves_uploads E ->
  forall files i acc w out w',
  batch_loop E batch_id i files acc w = (Ok out, w') ->
  forall k : string,
  uploads (fs w') !! k
  = if decide (k ∈ map (fun p => batch_file_id batch_id (fst p) ++ ".jpg")
                        (named_from i files))
    then None else uploads (fs w) !! k.
Proof.
  intros Hkeep. induction files as [| file rest IH];
    intros i acc w out w' Hrun k.
  - cbn in Hrun. injection Hrun as <- <-. reflexivity.
  - cbn [batch_loop] in Hrun.
    destruct (decide (filename file = "")) as [Hname | Hname].
    + rewrite (named_from_cons_skipped _ _ _ Hname). exact (IH _ _ _ _ _ Hrun k).
    + rewrite (named_from_cons_kept _ _ _ Hname).
      unfold bind at 1 in Hrun. unfold save_upload, modify in Hrun.
      unfold bind at 1 in Hrun. unfold model_predict in Hrun.
      cbn [fs set_fs uploads result_dirs model_loaded uuid_count clock_count
           predict_log] in Hrun.
      change ((batch_id ++ "_" ++ pretty i) ++ ".jpg")
        with (batch_file_id batch_id i ++ ".jpg") in Hrun.
      match type of Hrun with
      | context [predict E ?a ?f] =>
          pose proof (Hkeep a f) as Hu;
          destruct (predict E a f) as [[msg | rs] f']; [discriminate |]
      end.
      cbn [snd uploads] in Hu.
      unfold bind at 1 in Hrun. unfold cleanup_upload, modify in Hrun.
      cbn [fs set_fs uploads result_dirs model_loaded uuid_count clock_count
           predict_log] in Hrun.
      rewrite Hu, lookup_insert_eq in Hrun.
      apply IH with (k := k) in Hrun. rewrite Hrun.
      unfold set_fs. cbn [fs uploads map fst].
      destruct (decide (k = batch_file_id batch_id i ++ ".jpg")) as [-> | Hk].
      * rewrite lookup_delete_eq.
        rewrite (decide_True (P := _ ∈ _ :: _)) by apply list_elem_of_here.
        destruct (decide _); reflexivity.
      * rewrite lookup_delete_ne, lookup_insert_ne by congruence.
        destruct (decide (k ∈ map _ (named_from (S i) rest))) as [Hin | Hin].
        -- rewrite decide_True by (apply list_elem_of_further; exact Hin).
           reflexivity.
        -- rewrite decide_False; [reflexivity |].
           intros [Heq | Hin']%elem_of_cons; [congruence | exact (Hin Hin')].
Qed.

(** With a detector that leaves the upload directory alone, a batch
    answered 200 leaves that directory as it found it, except that the
    names it staged under are absent. *)
Theorem batch_frame (req : Request) (w : World) (k : string) :
  detector_preserves_uploads E ->
  status (fst (batch_detect E req w)) = 200 ->
  uploads (fs (snd (batch_detect E req w))) !! k
  = if decide (k ∈ map (fun p =>
                 batch_file_id (uuid4 E (uuid_count w)) (fst p) ++ ".jpg")
                 (named_from 0 (files_images req)))
    then None else uploads (fs w) !! k.
Proof.
  intros Hkeep.
  destruct (model_loaded w) eqn:Hm.
  - destruct (files_images req) as [| file rest] eqn:Hfiles.
    + unfold batch_detect, run_handler, batch_detect_body, bind, gets.
      rewrite Hm, Hfiles. cbn. discriminate.
    + assert (Hne : files_images req <> []) by congruence.
      rewrite (batch_detect_run E _ _ Hm Hne). cbv zeta. rewrite Hfiles.
      destruct (batch_loop E _ 0 (file :: rest) [] _)
        as [[msg | entries] w'] eqn:Hrun; cbn [fst snd status error_response];
        [discriminate | intros _].
      apply (batch_loop_uploads _ Hkeep) with (k := k) in Hrun.
      exact Hrun.
  - unfold batch_detect, run_handler, batch_detect_body, bind, gets.
    rewrite Hm. cbn. discriminate.
Qed.

End BatchMore.

Lemma batch_detector_failure_witness :
  let out :=
    batch_detect broken_env
      (batch_request [image "" ""; image "a.jpg" "AZ"; image "b.png" "zz"] None)
      fresh_world in
  fst out = error_response 500 "Batch processing failed: CUDA out of memory"
  /\ length (predict_log (snd out)) = 1
  /\ uploads (fs (snd out)) !! "00000000-0000-4000-8000-0_1.jpg" = Some "AZ".
Proof.
  cbv zeta.
  destruct (batch_detector_failure broken_env
    (batch_request [image "" ""; image "a.jpg" "AZ"; image "b.png" "zz"] None)
    fresh_world "CUDA out of memory" 1 (image "a.jpg" "AZ")
    [(2, image "b.png" "zz")] eq_refl
    ltac:(intros a f; reflexivity) eq_refl) as (Hresp & Hlog & Hleft).
  split; [exact Hresp |]. split; [rewrite Hlog; reflexivity |].
  exact (Hleft broken_detector_preserves_uploads).
Defined.

Lemma batch_frame_witness :
  let w :=
    {| model_loaded := true;
       fs := {| uploads := {[ "earlier.jpg" := "kept" ]}; result_dirs := ∅ |};
       uuid_count := 0; clock_count := 0; predict_log := [] |} in
  let out :=
    batch_detect toy_env
      (batch_request [image "a.jpg" "AZ"; image "" ""; image "b.png" "zz"] None)
      w in
  uploads (fs (snd out)) !! "earlier.jpg" = Some "kept"
  /\ uploads (fs (snd out)) !! "00000000-0000-4000-8000-0_2.jpg" = None.
Proof.
  cbv zeta.
  assert (H200 : status (fst (batch_detect toy_env
      (batch_request [image "a.jpg" "AZ"; image "" ""; image "b.png" "zz"] None)
      {| model_loaded := true;
         fs := {| uploads := {[ "earlier.jpg" := "kept" ]};
                  result_dirs := ∅ |};
         uuid_count := 0; clock_count := 0; predict_log := [] |})) = 200)
    by (vm_compute; reflexivity).
  split.
  - rewrite (batch_frame toy_env _ _ "earlier.jpg"
               toy_detector_preserves_uploads H200).
    vm_compute. reflexivity.
  - rewrite (batch_frame toy_env _ _ "00000000-0000-4000-8000-0_2.jpg"
               toy_detector_preserves_uploads H200).
    vm_compute. reflexivity.
Defined.

(** ** The annotated image *)

Section AnnotatedFacts.

Lemma substring_whole (s : string) : substring 0 (String.length s) s = s.
Proof.
  induction s as [| c s IH]; [reflexivity |].
  change (String c (substring 0 (String.length s) s) = String c s).
  f_equal. exact IH.
Qed.

Lemma substring_after_prefix (pre suf : string) :
  substring (String.length pre) (String.length suf) (pre ++ suf) = suf.
Proof. induction pre as [| c pre IH]; cbn; [apply substring_whole | exact IH]. Qed.

Lemma string_length_app (a b : string) :
  String.length (a ++ b) = String.length a + String.length b.
Proof.
  induction a as [| c a IH]; [reflexivity |].
  change (S (String.length (a ++ b)) = S (String.length a + String.length b)).
  f_equal. exact IH.
Qed.

Lemma substring_split (s : string) :
  forall k, k <= String.length s ->
  s = substring 0 k s ++ substring k (String.length s - k) s.
Proof.
  induction s as [| c s IH]; intros k Hk.
  - cbn in Hk. replace k with 0 by lia. reflexivity.
  - destruct k as [| k].
    + cbn. rewrite substring_whole. reflexivity.
    + cbn in Hk.
      change (String c s
              = String c (substring 0 k s
                          ++ substring k (String.length s - k) s)).
      f_equal. apply IH. lia.
Qed.

(** [endswith] is suffix-hood. *)
Lemma endswith_spec (s suffix : string) :
  endswith s suffix = true <-> exists stem, s = stem ++ suffix.
Proof.
  unfold endswith. split.
  - destruct (Nat.leb_spec (String.length suffix) (String.length s))
      as [Hle |]; [| discriminate].
    intros Heq. apply String.eqb_eq in Heq.
    exists (substring 0 (String.length s - String.length suffix) s).
    pose proof (substring_split s (String.length s - String.length suffix)
                  ltac:(lia)) as Hs.
    replace (String.length s - (String.length s - String.length suffix))
      with (String.length suffix) in Hs by lia.
    rewrite Heq in Hs. exact Hs.
  - intros [stem ->]. rewrite string_length_app.
    destruct (Nat.leb_spec (String.length suffix)
                (String.length stem + String.length suffix)); [| lia].
    replace (String.length stem + String.length suffix - String.length suffix)
      with (String.length stem) by lia.
    rewrite substring_after_prefix. apply String.eqb_refl.
Qed.

Lemma image_name_test (name : string) :
  existsb (endswith (lower name)) [".jpg"; ".jpeg"; ".png"] = true
  <-> image_name name.
Proof.
  rewrite existsb_exists. unfold image_name, image_suffixes. split.
  - intros (ext & Hin & Hends). apply endswith_spec in Hends.
    destruct Hends as [stem Hstem]. eauto.
  - intros (stem & ext & Hin & Hstem). exists ext. split; [exact Hin |].
    apply endswith_spec. eauto.
Qed.

(** The annotated image is looked for by name: the entry chosen is the
    first of the directory listing whose name, lowercased, ends in
    .jpg, .jpeg or .png, and none is chosen only when no entry has such
    a name. *)
Theorem find_annotated_first (listing : list (string * string)) :
  match find_annotated listing with
  | Some e =>
      exists before after,
        listing = (before ++ e :: after)%list
        /\ image_name (fst e)
        /\ Forall (fun x => ~ image_name (fst x)) before
  | None => Forall (fun x => ~ image_name (fst x)) listing
  end.
Proof.
  unfold find_annotated. induction listing as [| x rest IH]; [constructor |].
  cbn [List.find].
  destruct (existsb (endswith (lower (fst x))) _) eqn:Htest.
  - exists [], rest. split; [reflexivity |].
    split; [apply image_name_test; exact Htest | constructor].
  - assert (Hx : ~ image_name (fst x)).
    { intros H. apply image_name_test in H. congruence. }
    destruct (List.find _ rest) as [e |].
    + destruct IH as (before & after & -> & He & Hb).
      exists (x :: before), after. split; [reflexivity |].
      split; [exact He | constructor; assumption].
    + constructor; assumption.
Qed.

Lemma find_annotated_first_witness :
  find_annotated
    [("labels", ""); ("notes.txt", "n"); ("RIVER.JPG", "r"); ("b.png", "b")]
  = Some ("RIVER.JPG", "r")
  /\ ~ image_name "labels" /\ ~ image_name "notes.txt".
Proof.
  split; [reflexivity |].
  pose proof (find_annotated_first [("labels", ""); ("notes.txt", "n")]) as H.
  change (find_annotated _) with (@None (string * string)) in H.
  cbv iota in H.
  apply Forall_cons in H. destruct H as [H1 H].
  apply Forall_cons in H. destruct H as [H2 _].
  split; assumption.
Defined.

End AnnotatedFacts.

(** ** Start-up, health and the model handle *)

Section ServiceFacts.

(** [load_model] returns True exactly when the trained weights exist,
    the constructor returns on them and the line reporting it prints.
    The model handle is set afterwards exactly when it was set before
    or a constructor was reached and returned: the one on the trained
    weights, or the pretrained fallback, which is reached only once the
    "not found" line has printed. [load_model] raises exactly when the
    [try] body raised and the line of the [except] clause does not
    print either. Nothing else in the world changes. *)
Theorem load_model_outcome (W : Weights) (w : World) :
  let out := load_model W w in
  (fst out = Ok true
   <-> path_exists W MODEL_PATH = true
       /\ YOLO W MODEL_PATH = Ok tt
       /\ py_print W loaded_line = Ok tt)
  /\ (model_loaded (snd out) = true
      <-> model_loaded w = true
          \/ (path_exists W MODEL_PATH = true /\ YOLO W MODEL_PATH = Ok tt)
          \/ (path_exists W MODEL_PATH = false
              /\ py_print W not_found_line = Ok tt
              /\ YOLO W "yolov8n.pt" = Ok tt))
  /\ (forall e', fst out = Raise e'
      <-> exists e, fst (load_model_body W w) = Raise e
                    /\ py_print W (error_line e) = Raise e')
  /\ fs (snd out) = fs w
  /\ uuid_count (snd out) = uuid_count w
  /\ clock_count (snd out) = clock_count w
  /\ predict_log (snd out) = predict_log w.
Proof.
  cbv zeta. unfold load_model, load_model_body, bind, outcome, modify, ret,
    raise.
  destruct (path_exists W MODEL_PATH);
    repeat match goal with
           | |- context [match ?x with Raise _ => _ | Ok _ => _ end] =>
               let e := fresh "e" in
               let H := fresh "H" in
               destruct x as [e | []] eqn:H; cbn [fst snd]
           end;
    cbn [fst snd model_loaded fs uuid_count clock_count predict_log set_model].
  all: repeat split; intros.
  all: try reflexivity; try congruence; try (intuition congruence).
  all: try match goal with
           | H : exists _, _ |- _ => destruct H as (? & ? & ?); congruence
           end.
  all: try (eexists; split; [reflexivity | congruence]).
Qed.

(** On a standard output that cannot encode its lines, with the weights
    file missing, [load_model] raises and the model stays unset. *)
Lemma load_model_outcome_witness :
  fst (load_model mute_weights unloaded_world)
  = Raise "'charmap' codec can't encode character"
  /\ model_loaded (snd (load_model mute_weights unloaded_world)) = false.
Proof.
  pose proof (load_model_outcome mute_weights unloaded_world) as H.
  cbv zeta in H. destruct H as (_ & Hset & _).
  split; [reflexivity |].
  destruct (model_loaded (snd (load_model mute_weights unloaded_world)))
    eqn:Hm; [| reflexivity].
  destruct (proj1 Hset eq_refl) as [H | [[H _] | (_ & H & _)]];
    discriminate H.
Defined.

Lemma handlers_not_loaded (E : Env) (req : Request) (w : World) :
  model_loaded w = false ->
  detect_plastic E req w = (error_response 500 "Model not loaded", w)
  /\ batch_detect E req w = (error_response 500 "Model not loaded", w).
Proof.
  intros Hm.
  unfold detect_plastic, batch_detect, run_handler, detect_plastic_body,
    batch_detect_body, bind, gets.
  rewrite Hm. split; reflexivity.
Qed.

Lemma detect_loaded_answer (E : Env) (req : Request) (w : World) :
  model_loaded w = true ->
  fst (detect_plastic E req w) <> error_response 500 "Model not loaded".
Proof.
  intros Hm.
  destruct (detect_plastic_cases E req w)
    as [[Hm' _] | [(_ & _ & ->) | [(file & _ & _ & _ & ->)
                                  | (file & _ & Hfile & Hname)]]];
    [congruence | discriminate | discriminate |].
  rewrite (detect_plastic_run E _ _ _ Hm Hfile Hname).
  destruct (parsed_threshold E req) as [msg | q]; [discriminate |].
  destruct (predict E _ _) as [[msg | rs] f']; discriminate.
Qed.

Lemma batch_loaded_answer (E : Env) (req : Request) (w : World) :
  model_loaded w = true ->
  fst (batch_detect E req w) <> error_response 500 "Model not loaded".
Proof.
  intros Hm. destruct (files_images req) as [| file rest] eqn:Hfiles.
  - unfold batch_detect, run_handler, batch_detect_body, bind, gets.
    rewrite Hm, Hfiles. discriminate.
  - assert (Hne : files_images req <> []) by congruence.
    rewrite (batch_detect_run E _ _ Hm Hne). cbv zeta.
    destruct (batch_loop E _ 0 _ [] _) as [[msg | entries] w']; discriminate.
Qed.

(** The health endpoint always reports status healthy, and its
    [model_loaded] flag is false exactly when the two detection
    endpoints answer 500 "Model not loaded", which they then do before
    looking at the request and without touching the world. *)
Theorem health_flag_matches_handlers (E : Env) (req : Request) (w : World) :
  let health := fst (health_check E w) in
  h_status health = "healthy"
  /\ (h_model_loaded health = false
      <-> fst (detect_plastic E req w)
          = error_response 500 "Model not loaded")
  /\ (h_model_loaded health = false
      <-> fst (batch_detect E req w)
          = error_response 500 "Model not loaded")
  /\ (h_model_loaded health = false ->
      snd (detect_plastic E req w) = w /\ snd (batch_detect E req w) = w).
Proof.
  cbv zeta. cbn [health_check fst h_status h_model_loaded].
  split; [reflexivity |].
  destruct (model_loaded w) eqn:Hm.
  - pose proof (detect_loaded_answer E req w Hm).
    pose proof (batch_loaded_answer E req w Hm).
    repeat split; intros; first [discriminate | contradiction].
  - destruct (handlers_not_loaded E req w Hm) as [-> ->].
    repeat split; reflexivity.
Qed.

(** When the trained weights are missing, the "not found" line prints
    and the pretrained fallback loads, the server has a model whatever
    [load_model] then returns or raises: no request is answered "Model
    not loaded". If the fallback line prints too, [load_model] returns
    False. *)
Theorem fallback_model_serves (W : Weights) (w : World) (E : Env)
    (req : Request) :
  path_exists W MODEL_PATH = false ->
  py_print W not_found_line = Ok tt ->
  YOLO W "yolov8n.pt" = Ok tt ->
  (py_print W fallback_line = Ok tt -> fst (load_model W w) = Ok false)
  /\ fst (detect_plastic E req (snd (load_model W w)))
     <> error_response 500 "Model not loaded"
  /\ fst (batch_detect E req (snd (load_model W w)))
     <> error_response 500 "Model not loaded".
Proof.
  intros Hpath Hline Hyolo.
  assert (Hm : model_loaded (snd (load_model W w)) = true).
  { unfold load_model, load_model_body, bind, outcome, modify, ret, raise.
    rewrite Hpath, Hline, Hyolo.
    destruct (py_print W fallback_line) as [e | []]; cbn [fst snd];
      [destruct (py_print W (error_line e)) as [e' | []] |]; reflexivity. }
  split.
  - intros Hfb.
    unfold load_model, load_model_body, bind, outcome, modify, ret, raise.
    rewrite Hpath, Hline, Hyolo, Hfb. reflexivity.
  - split; [apply detect_loaded_answer | apply batch_loaded_answer]; exact Hm.
Qed.

Lemma fallback_model_serves_witness :
  fst (load_model fallback_weights unloaded_world) = Ok false
  /\ status (fst (detect_plastic toy_env
       (single_request (Some (image "river.jpg" "AZ!x")) None)
       (snd (load_model fallback_weights unloaded_world)))) = 200.
Proof.
  destruct (fallback_model_serves fallback_weights unloaded_world toy_env
              (single_request (Some (image "river.jpg" "AZ!x")) None)
              eq_refl eq_refl eq_refl) as (Hret & _ & _).
  split; [exact (Hret eq_refl) | vm_compute; reflexivity].
Defined.

End ServiceFacts.

(** ** The confidence field in float32 *)

Section FloatFacts.

(** The length of the array is enough fuel for the summation. *)
Lemma pairwise_sum_fuel (fuel : nat) :
  forall (a : list spec_float) (fuel' : nat),
  length a <= fuel -> length a <= fuel' ->
  Float32.pairwise_sum fuel a = Float32.pairwise_sum fuel' a.
Proof.
  induction fuel as [| fuel IH]; intros a fuel' Hf Hf'.
  - destruct a; [| cbn in Hf; lia]. destruct fuel'; reflexivity.
  - destruct fuel' as [| fuel'].
    + destruct a; [reflexivity | cbn in Hf'; lia].
    + cbn [Float32.pairwise_sum].
      destruct (Nat.leb_spec (length a) Float32.PW_BLOCKSIZE) as [| Hbig];
        [reflexivity |].
      unfold Float32.PW_BLOCKSIZE in Hbig.
      pose proof (Nat.div_mod_eq (length a) 2) as Hd.
      pose proof (Nat.mod_upper_bound (length a) 2 ltac:(lia)) as Hm.
      pose proof (Nat.mod_upper_bound (length a / 2) 8 ltac:(lia)) as Hm8.
      f_equal; apply IH;
        rewrite ?length_firstn, ?length_skipn; lia.
Qed.

















End FloatFacts.
